(** * EA / Microsoft e-mail checker: the two-stage verification pipeline

    A shallow embedding of [EmailChecker] (interpreters, network probes and
    [process_email]) together with the properties its specification states.

    Layout:
    - [Py]: the pieces of the Python runtime the checker relies on
      (text, [int()], JSON values and [json.dumps], floats and
      [random.random()]);
    - the effect monad: a history of performed effects, Python exceptions;
    - the checker itself, method by method, under the source's names;
    - the theorems. *)

From Stdlib Require Import List String Ascii NArith ZArith Bool Lia DecimalString.
From Stdlib Require Import SpecFloat Zpower.
Import ListNotations.

Local Open Scope Z_scope.
#[local] Set Warnings "-register-all".

(* ===================================================================== *)
(** * The Python runtime, as far as the checker uses it                   *)
(* ===================================================================== *)

Module Py.

(** A Python [str] is a sequence of Unicode code points. *)
Definition pystr := list N.

(** Source literals are ASCII; [u] reads one as a [pystr]. *)
Fixpoint u (s : string) : pystr :=
match s with
| EmptyString => []
| String c rest => N_of_ascii c :: u rest
end.

Fixpoint pystr_eqb (a b : pystr) : bool :=
match a, b with
| [], [] => true
| x :: a', y :: b' => N.eqb x y && pystr_eqb a' b'
| _, _ => false
end.

Fixpoint startswith (needle hay : pystr) : bool :=
match needle, hay with
| [], _ => true
| x :: needle', y :: hay' => N.eqb x y && startswith needle' hay'
| _ :: _, [] => false
end.

(** [needle in hay] on strings. *)
Fixpoint contains (needle hay : pystr) : bool :=
startswith needle hay ||
match hay with
| [] => false
| _ :: hay' => contains needle hay'
end.

Definition is_ascii (c : N) : bool := (c <? 128)%N.

Definition ascii_lower (c : N) : N :=
if ((65 <=? c) && (c <=? 90))%N then (c + 32)%N else c.

Section Lower.
(** [str.lower] of a string that is not pure ASCII follows the Unicode
    case tables of the interpreter (with their context rules), which are
    not part of the program: they are a parameter. *)
Variable unicode_lower : pystr -> pystr.

Definition str_lower (s : pystr) : pystr :=
  if forallb is_ascii s then map ascii_lower s else unicode_lower s.
End Lower.

(** [str.isspace] per code point: what [str.strip()] removes. *)
Definition is_space (c : N) : bool :=
((9 <=? c) && (c <=? 13) || (28 <=? c) && (c <=? 32) ||
 (c =? 133) || (c =? 160) || (c =? 5760) ||
 (8192 <=? c) && (c <=? 8202) || (c =? 8232) || (c =? 8233) ||
 (c =? 8239) || (c =? 8287) || (c =? 12288))%N.

Fixpoint lstrip (s : pystr) : pystr :=
match s with
| c :: s' => if is_space c then lstrip s' else s
| [] => []
end.

Definition str_strip (s : pystr) : pystr := rev (lstrip (rev (lstrip s))).

(** ** [int(s)] on header text

  Header values reach the program decoded as Latin-1, one [ascii] per
  character.  [int] accepts optional surrounding blanks, an optional
  sign, and decimal digits that single underscores may separate; longer
  digit strings than [int_max_str_digits] are refused. *)

Definition int_max_str_digits : nat := 4300.

Definition int_blank (c : ascii) : bool :=
let n := N_of_ascii c in
((9 <=? n) && (n <=? 13) || (n =? 32) || (n =? 133) || (n =? 160))%N.

Definition is_digit (c : ascii) : bool :=
let n := N_of_ascii c in ((48 <=? n) && (n <=? 57))%N.

Definition digit_value (c : ascii) : Z := Z.of_N (N_of_ascii c) - 48.

Definition is_underscore (c : ascii) : bool := (N_of_ascii c =? 95)%N.

Fixpoint skip_blanks (l : list ascii) : list ascii :=
match l with
| c :: l' => if int_blank c then skip_blanks l' else l
| [] => []
end.

(** Scans [digit (_? digit)*]; [prev_us] tells that the previous character
  was an underscore.  Returns the value, the number of digits and the
  rest of the input, or [None] on a doubled or trailing underscore. *)
Fixpoint scan_digits (l : list ascii) (prev_us : bool) (acc : Z) (n : nat)
: option (Z * nat * list ascii) :=
match l with
| c :: l' =>
    if is_digit c then scan_digits l' false (10 * acc + digit_value c) (S n)
    else if is_underscore c then
      if prev_us then None else scan_digits l' true acc n
    else if prev_us then None else Some (acc, n, l)
| [] => if prev_us then None else Some (acc, n, [])
end.

Definition int_of_chars (l : list ascii) : option Z :=
let l := skip_blanks l in
let '(sign, l) :=
  match l with
  | c :: l' =>
      if (N_of_ascii c =? 43)%N then (1, l')
      else if (N_of_ascii c =? 45)%N then (-1, l')
      else (1, l)
  | [] => (1, l)
  end in
match l with
| c :: _ =>
    if is_underscore c then None
    else
      match scan_digits l false 0 0 with
      | Some (v, n, rest) =>
          if Nat.eqb n 0 then None
          else if Nat.ltb int_max_str_digits n then None
          else match skip_blanks rest with
               | [] => Some (sign * v)
               | _ :: _ => None
               end
      | None => None
      end
| [] => None
end.

Definition int_of_str (s : string) : option Z :=
int_of_chars (list_ascii_of_string s).

(** ** JSON values, as [r.json()] delivers them

  A [float] is carried as the literal [json.dumps] prints for it
  ([float.__repr__], or [NaN], [Infinity], [-Infinity]); the program
  observes a float only through that text and through its truth value.
  A [dict] keeps its insertion order. *)
Inductive json : Type :=
| JNull
| JBool (b : bool)
| JInt (z : Z)
| JFloat (literal : string)
| JStr (s : pystr)
| JList (items : list json)
| JDict (items : list (pystr * json)).

(** [d.get(key)]: [None] of the result stands for a missing key. *)
Fixpoint dict_get (key : pystr) (d : list (pystr * json)) : option json :=
match d with
| [] => None
| (k, v) :: d' => if pystr_eqb key k then Some v else dict_get key d'
end.

(** [key in d]. *)
Definition dict_has (key : pystr) (d : list (pystr * json)) : bool :=
match dict_get key d with Some _ => true | None => false end.

(** [bool(x)]. *)
Definition truthy (j : json) : bool :=
match j with
| JNull => false
| JBool b => b
| JInt z => negb (z =? 0)
| JFloat lit => negb (String.eqb lit "0.0" || String.eqb lit "-0.0")
| JStr s => match s with [] => false | _ => true end
| JList l => match l with [] => false | _ => true end
| JDict d => match d with [] => false | _ => true end
end.

(** ** [json.dumps] with its defaults ([ensure_ascii], [", "], [": "]) *)

Definition hexdigit (n : N) : N :=
if (n <? 10)%N then (48 + n)%N else (87 + n)%N.

Definition hex4 (n : N) : pystr :=
[hexdigit ((n / 4096) mod 16); hexdigit ((n / 256) mod 16);
 hexdigit ((n / 16) mod 16); hexdigit (n mod 16)]%N.

Definition escape_char (c : N) : pystr :=
if (c =? 34)%N then [92; 34]%N
else if (c =? 92)%N then [92; 92]%N
else if (c =? 8)%N then u "\b"
else if (c =? 12)%N then u "\f"
else if (c =? 10)%N then u "\n"
else if (c =? 13)%N then u "\r"
else if (c =? 9)%N then u "\t"
else if ((32 <=? c) && (c <=? 126))%N then [c]
else if (c <? 65536)%N then u "\u" ++ hex4 c
else
  let n := (c - 65536)%N in
  u "\u" ++ hex4 (N.lor 55296 (N.land (N.shiftr n 10) 1023)) ++
  u "\u" ++ hex4 (N.lor 56320 (N.land n 1023)).

Definition encode_basestring_ascii (s : pystr) : pystr :=
[34%N] ++ flat_map escape_char s ++ [34%N].

Definition int_repr (z : Z) : pystr := u (NilZero.string_of_int (Z.to_int z)).

Fixpoint json_dumps (j : json) : pystr :=
match j with
| JNull => u "null"
| JBool true => u "true"
| JBool false => u "false"
| JInt z => int_repr z
| JFloat lit => u lit
| JStr s => encode_basestring_ascii s
| JList l =>
    u "[" ++
    (fix items (l : list json) : pystr :=
       match l with
       | [] => []
       | x :: rest =>
           json_dumps x ++
           match rest with [] => [] | _ :: _ => u ", " ++ items rest end
       end) l ++ u "]"
| JDict d =>
    u "{" ++
    (fix items (d : list (pystr * json)) : pystr :=
       match d with
       | [] => []
       | (k, v) :: rest =>
           encode_basestring_ascii k ++ u ": " ++ json_dumps v ++
           match rest with [] => [] | _ :: _ => u ", " ++ items rest end
       end) d ++ u "}"
end.

(** The literals of the floats inside a value are ASCII text. *)
Fixpoint floats_ascii (j : json) : bool :=
  match j with
  | JFloat lit => forallb is_ascii (u lit)
  | JList l => forallb floats_ascii l
  | JDict d => forallb (fun kv => floats_ascii (snd kv)) d
  | _ => true
  end.

(** ** Floats

    A Python [float] is an IEEE 754 binary64 number; the operations are
    those of the standard, rounding to nearest, ties to even. *)
Definition prec : Z := 53.
Definition emax : Z := 1024.
Definition pyfloat : Type := spec_float.

(** The float of an integer literal such as [3.0]. *)
Definition float_of_Z (n : Z) : pyfloat := binary_normalize prec emax n 0 false.

Definition float_add : pyfloat -> pyfloat -> pyfloat := SFadd prec emax.
Definition float_sub : pyfloat -> pyfloat -> pyfloat := SFsub prec emax.
Definition float_mul : pyfloat -> pyfloat -> pyfloat := SFmul prec emax.
Definition float_le (x y : pyfloat) : bool := SFleb x y.
Definition float_lt (x y : pyfloat) : bool := SFltb x y.

(** [random.random()] out of the 53 bits [k] it takes from the generator:
    the float [k * 2 ** -53], which needs no rounding. *)
Definition random_of_bits (k : Z) : pyfloat :=
  binary_normalize prec emax (k mod 2 ^ 53) (-53) false.

(** [random.uniform(a, b)] is [a + (b - a) * self.random()]. *)
Definition uniform (a b r : pyfloat) : pyfloat :=
  float_add a (float_mul (float_sub b a) r).
Arguments uniform : simpl never.

(** The floats [random.random()] returns are [0.0] and normal floats
    below [1.0]. *)
Definition in_unit_interval (r : pyfloat) : bool :=
  match r with
  | S754_zero false => true
  | S754_finite false m e =>
      (Z.pos (digits2_pos m) =? 53) && (-1074 <=? e) && (e <=? -53)
  | _ => false
  end.

End Py.

Import Py.

(* ===================================================================== *)
(** * Effects: exceptions, the network, sleeping                          *)
(* ===================================================================== *)

(** The exception classes that occur; all derive from [Exception], which
    is what the handlers of the checker catch.  An interrupt from the
    keyboard is not an [Exception] and is outside the model. *)
Inductive exn : Type :=
| RequestException   (* raised by [requests]: connection error, timeout, ... *)
| ValueError
| OverflowError
| AttributeError.

(** How a Python expression completes. *)
Inductive completion (A : Type) : Type :=
| Normal (a : A)
| Raise (e : exn).
Arguments Normal {A} a.
Arguments Raise {A} e.

(** A [requests.Response], as far as the probes read it.  [r_json] is what
    [r.json()] does: the parsed body, or [None] when it raises.  Header
    names and values are Latin-1 text. *)
Record http_response : Type := {
  r_status_code : Z;
  r_headers : list (string * string);
  r_text : pystr;
  r_json : option json
}.

Inductive http_method : Type := GET | POST.

(** A call on the session: method, URL, and the address it carries in its
    query parameters or JSON payload ([None] for the landing pages). *)
Record request : Type := {
  rq_method : http_method;
  rq_url : string;
  rq_address : option pystr
}.

Inductive http_result : Type :=
| Raised (e : exn)
| Returned (r : http_response).

(** The effects a run performs, in order.  [EvSleep] is [time.sleep] of
    an [int], [EvDelayRetry] the sleep of [_delay_retry], of a [float]. *)
Inductive event : Type :=
| EvHttp (rq : request) (res : http_result)
| EvSleep (seconds : Z)
| EvDelayRetry (seconds : pyfloat).

Definition history := list event.

(** The outside world: what each session call brings back, what the
    clock shows and which 53 bits the random generator yields, given
    everything the run has done so far (cookies and referer of the
    session are functions of that history). *)
Record World : Type := {
  respond : history -> request -> http_result;
  localtime : history -> string;
  random_bits : history -> Z
}.

(** Computations thread the history and may raise. *)
Definition M (A : Type) : Type := history -> completion A * history.

Definition ret {A : Type} (a : A) : M A := fun h => (Normal a, h).

Definition bind {A B : Type} (m : M A) (f : A -> M B) : M B :=
  fun h =>
    match m h with
    | (Normal a, h') => f a h'
    | (Raise e, h') => (Raise e, h')
    end.

Definition lift {A : Type} (c : completion A) : M A := fun h => (c, h).

(** [try: body  except Exception: handler] *)
Definition try_except {A : Type} (body : M A) (handler : exn -> M A) : M A :=
  fun h =>
    match body h with
    | (Normal a, h') => (Normal a, h')
    | (Raise e, h') => handler e h'
    end.

Definition emit (e : event) : M unit := fun h => (Normal tt, h ++ [e]).

Declare Scope checker_scope.
Delimit Scope checker_scope with checker.
Notation "x <- m ;; k" := (bind m (fun x => k))
  (at level 61, m at next level, right associativity) : checker_scope.
Notation "m ;; k" := (bind m (fun _ => k))
  (at level 61, right associativity) : checker_scope.
Local Open Scope checker_scope.

(** [for i in items: body], where the body either leaves the function with
    a value ([return_]) or goes on to the next round ([continue], also the
    end of the body); [orelse] is the code after the loop. *)
Fixpoint for_each {A : Type} (items : list nat)
    (body : nat -> M (option A)) (orelse : M A) : M A :=
  match items with
  | [] => orelse
  | i :: rest =>
      r <- body i ;;
      match r with
      | Some a => ret a
      | None => for_each rest body orelse
      end
  end.

Definition return_ {A : Type} (a : A) : M (option A) := ret (Some a).
Definition continue {A : Type} : M (option A) := ret None.

(** [time.sleep(n)] for an [int]: a negative length is a [ValueError], one
    beyond the 64-bit nanosecond clock of the interpreter (more than
    [max_sleep] seconds) an [OverflowError]. *)
Definition max_sleep : Z := 9223372036.

Definition time_sleep (n : Z) : M unit :=
  if n <? 0 then lift (Raise ValueError)
  else if max_sleep <? n then lift (Raise OverflowError)
  else emit (EvSleep n).

(** Header lookup of [requests] ignores the case of the name. *)
Definition lower_ascii (c : ascii) : ascii :=
  let n := N_of_ascii c in
  if ((65 <=? n) && (n <=? 90))%N then ascii_of_N (n + 32) else c.

Fixpoint lower_string (s : string) : string :=
  match s with
  | EmptyString => EmptyString
  | String c rest => String (lower_ascii c) (lower_string rest)
  end.

Fixpoint headers_get (name : string) (hs : list (string * string))
  : option string :=
  match hs with
  | [] => None
  | (k, v) :: hs' =>
      if String.eqb (lower_string k) (lower_string name) then Some v
      else headers_get name hs'
  end.

(** [int(r.headers.get(name, default))] *)
Definition int_header (r : http_response) (name : string) (default : Z)
  : completion Z :=
  match headers_get name (r_headers r) with
  | None => Normal default
  | Some v =>
      match int_of_str v with
      | Some n => Normal n
      | None => Raise ValueError
      end
  end.

(* ===================================================================== *)
(** * Data of the checker                                                 *)
(* ===================================================================== *)

Definition EA_CHECK_URL : string := "https://signin.ea.com/p/ajax/user/checkEmailExisted".
Definition EA_REFERER_PAGE : string := "https://signin.ea.com/p/juno/create".
Definition MS_CHECK_URL : string := "https://signup.live.com/API/CheckAvailableSigninNames".
Definition MS_REFERER_PAGE : string := "https://signup.live.com/".

Definition DIR_EA_NOT_AVAILABLE : string := "ea_not_available".
Definition DIR_NOT_AVAILABLE_EMAIL : string := "not_available_email".
Definition DIR_AVAILABLE : string := "available".

(** The three buckets, and the folder each one is stored under. *)
Inductive bucket : Type :=
| NOT_LINKED
| LINKED_BUT_UNAVAILABLE
| LINKED_AND_AVAILABLE.

Definition folder_of (b : bucket) : string :=
  match b with
  | NOT_LINKED => DIR_EA_NOT_AVAILABLE
  | LINKED_BUT_UNAVAILABLE => DIR_NOT_AVAILABLE_EMAIL
  | LINKED_AND_AVAILABLE => DIR_AVAILABLE
  end.

Definition bucket_of (folder : option string) : option bucket :=
  match folder with
  | None => None
  | Some f =>
      if String.eqb f DIR_EA_NOT_AVAILABLE then Some NOT_LINKED
      else if String.eqb f DIR_NOT_AVAILABLE_EMAIL then Some LINKED_BUT_UNAVAILABLE
      else if String.eqb f DIR_AVAILABLE then Some LINKED_AND_AVAILABLE
      else None
  end.

(** [{"status_code": ..., "headers": ...}] *)
Record probe_meta : Type := {
  status_code : Z;
  headers : list (string * string)
}.

(** [{"ok": ..., "response": ..., "meta": ...}], what a probe returns. *)
Record probe_outcome : Type := {
  ok : bool;
  response : json;
  meta : probe_meta
}.

(** [{"exists": ..., "reason": ...}] *)
Record ea_verdict : Type := {
  exists_ : bool;
  ea_reason : string
}.

(** [{"available": ..., "reason": ...}]; [None] is Python's [None]. *)
Record ms_verdict : Type := {
  available : option bool;
  ms_reason : string
}.

(** The [result] dict of [process_email]; [None] is Python's [None]. *)
Record verification_record : Type := {
  email : pystr;
  timestamp : string;
  ea_check : option probe_outcome;
  ea_interpret : option ea_verdict;
  ms_check : option probe_outcome;
  ms_interpret : option ms_verdict;
  final_folder : option string;
  note : option string
}.

Definition set_ea_check (v : probe_outcome) (r : verification_record) :=
  {| email := email r; timestamp := timestamp r; ea_check := Some v;
     ea_interpret := ea_interpret r; ms_check := ms_check r;
     ms_interpret := ms_interpret r; final_folder := final_folder r;
     note := note r |}.

Definition set_ea_interpret (v : ea_verdict) (r : verification_record) :=
  {| email := email r; timestamp := timestamp r; ea_check := ea_check r;
     ea_interpret := Some v; ms_check := ms_check r;
     ms_interpret := ms_interpret r; final_folder := final_folder r;
     note := note r |}.

Definition set_ms_check (v : probe_outcome) (r : verification_record) :=
  {| email := email r; timestamp := timestamp r; ea_check := ea_check r;
     ea_interpret := ea_interpret r; ms_check := Some v;
     ms_interpret := ms_interpret r; final_folder := final_folder r;
     note := note r |}.

Definition set_ms_interpret (v : ms_verdict) (r : verification_record) :=
  {| email := email r; timestamp := timestamp r; ea_check := ea_check r;
     ea_interpret := ea_interpret r; ms_check := ms_check r;
     ms_interpret := Some v; final_folder := final_folder r;
     note := note r |}.

Definition set_final (folder text : string) (r : verification_record) :=
  {| email := email r; timestamp := timestamp r; ea_check := ea_check r;
     ea_interpret := ea_interpret r; ms_check := ms_check r;
     ms_interpret := ms_interpret r; final_folder := Some folder;
     note := Some text |}.

(* ===================================================================== *)
(** * class EmailChecker                                                  *)
(* ===================================================================== *)

Section EmailChecker.

Variable unicode_lower : pystr -> pystr.
Variable world : World.

Abbreviation lower := (str_lower unicode_lower).

(** [self.s.get(url, ...)] / [self.s.post(url, ...)]: the call is
    recorded with what came back; a transport failure is raised. *)
Definition session_request (rq : request) : M http_response :=
  fun h =>
    let res := respond world h rq in
    (match res with
     | Raised e => Raise e
     | Returned r => Normal r
     end, h ++ [EvHttp rq res]).

Definition now_ts : M string := fun h => (Normal (localtime world h), h).

(** [random.random()] and [random.uniform(a, b)] *)
Definition random_random : M pyfloat :=
  fun h => (Normal (random_of_bits (random_bits world h)), h).

Definition random_uniform (a b : pyfloat) : M pyfloat :=
  r <- random_random ;;
  ret (uniform a b r).

(** [time.sleep(t)] raises on a NaN, on a negative length and on one
    beyond the range of the clock, and on nothing else; here [t] is
    between [3.0] and [5.0] (lemma [random_uniform_3_5_bounds]), so the
    sleep takes place: it is recorded with its length. *)
Definition _delay_retry : M unit :=
  t <- random_uniform (float_of_Z 3) (float_of_Z 5) ;;
  emit (EvDelayRetry t).

Definition ea_page : request :=
  {| rq_method := GET; rq_url := EA_REFERER_PAGE; rq_address := None |}.
Definition ms_page : request :=
  {| rq_method := GET; rq_url := MS_REFERER_PAGE; rq_address := None |}.
Definition ea_query (email : pystr) : request :=
  {| rq_method := GET; rq_url := EA_CHECK_URL; rq_address := Some email |}.
Definition ms_query (email : pystr) : request :=
  {| rq_method := POST; rq_url := MS_CHECK_URL; rq_address := Some email |}.

Definition refresh_ea_cookies : M bool :=
  try_except
    (_ <- session_request ea_page ;;
     ret true)
    (fun _ => ret false).

Definition refresh_ms_cookies : M bool :=
  try_except
    (_ <- session_request ms_page ;;
     ret true)
    (fun _ => ret false).

(** [body = r.json()], or the first 1000 characters of the raw text. *)
Definition body_of (r : http_response) : json :=
  match r_json r with
  | Some body => body
  | None => JDict [(u "raw_text", JStr (firstn 1000 (r_text r)))]
  end.

Definition failed_outcome : probe_outcome :=
  {| ok := false; response := JDict [];
     meta := {| status_code := 0; headers := [] |} |}.

(** One round of the loop of [check_ea_email]. *)
Definition check_ea_email_attempt (email : pystr) (attempt : nat)
  : M (option probe_outcome) :=
  try_except
    (r <- session_request (ea_query email) ;;
     if r_status_code r =? 429 then
       reset_time <- lift (int_header r "ratelimit-reset" 60) ;;
       time_sleep reset_time ;;
       continue
     else
       let status := {| status_code := r_status_code r;
                        headers := r_headers r |} in
       let body := body_of r in
       if r_status_code r =? 200 then
         return_ {| ok := true; response := body; meta := status |}
       else
         refresh_ea_cookies ;;
         _delay_retry ;;
         continue)
    (fun e =>
       _delay_retry ;;
       continue).

Definition check_ea_email (email : pystr) : M probe_outcome :=
  for_each (seq 0 3) (check_ea_email_attempt email) (ret failed_outcome).

(** [x.lower()]: only a [str] has the method. *)
Definition method_lower (x : json) : completion pystr :=
  match x with
  | JStr s => Normal (lower s)
  | _ => Raise AttributeError
  end.

(** [d.get(key, default)] *)
Definition get_default (key : pystr) (default : json)
    (d : list (pystr * json)) : json :=
  match dict_get key d with Some v => v | None => default end.

Definition is_False (x : json) : bool :=
  match x with JBool false => true | _ => false end.
Definition is_True (x : json) : bool :=
  match x with JBool true => true | _ => false end.

Definition interpret_ea_response (body : json) : completion ea_verdict :=
  match body with
  | JDict d =>
      match method_lower (get_default (u "message") (JStr []) d) with
      | Raise e => Raise e
      | Normal msg =>
          if contains (u "register_email_existed") msg
             || pystr_eqb msg (u "register_email_existed") then
            Normal {| exists_ := true;
                      ea_reason := "EA message: register_email_existed" |}
          else if contains (u "register_email_not_existed") msg
                  || pystr_eqb msg (u "register_email_not_existed") then
            Normal {| exists_ := false;
                      ea_reason := "EA message: register_email_not_existed" |}
          else
            let status := get_default (u "status") JNull d in
            if is_False status && contains (u "existed") msg then
              Normal {| exists_ := true;
                        ea_reason := "status=false with existed message" |}
            else if is_True status && contains (u "not_existed") msg then
              Normal {| exists_ := false;
                        ea_reason := "status=true with not_existed message" |}
            else
              let text := lower (json_dumps body) in
              if contains (u "existed") text && negb (contains (u "not") text) then
                Normal {| exists_ := true;
                          ea_reason := "text_heuristic_positive" |}
              else if contains (u "not_existed") text
                      || contains (u "does not exist") text then
                Normal {| exists_ := false;
                          ea_reason := "text_heuristic_negative" |}
              else
                Normal {| exists_ := false;
                          ea_reason := "no_clear_indicator" |}
      end
  | _ => Normal {| exists_ := false; ea_reason := "not_a_dict" |}
  end.

(** One round of the loop of [check_ms_name]. *)
Definition check_ms_name_attempt (email : pystr) (attempt : nat)
  : M (option probe_outcome) :=
  try_except
    (r <- session_request (ms_query email) ;;
     if r_status_code r =? 429 then
       reset_time <- lift (int_header r "ratelimit-reset" 60) ;;
       time_sleep reset_time ;;
       continue
     else
       let status := {| status_code := r_status_code r;
                        headers := r_headers r |} in
       let body := body_of r in
       if r_status_code r =? 200 then
         return_ {| ok := true; response := body; meta := status |}
       else
         refresh_ms_cookies ;;
         _delay_retry ;;
         continue)
    (fun e =>
       _delay_retry ;;
       continue).

Definition check_ms_name (email : pystr) : M probe_outcome :=
  for_each (seq 0 3) (check_ms_name_attempt email) (ret failed_outcome).

Definition interpret_ms_response (body : json) : ms_verdict :=
  match body with
  | JDict d =>
      match dict_get (u "isAvailable") d with
      | Some v =>
          {| available := Some (truthy v); ms_reason := "field:isAvailable" |}
      | None =>
          if truthy (get_default (u "suggestions") JNull d) then
            {| available := Some false; ms_reason := "has_suggestions" |}
          else
            let text := lower (json_dumps body) in
            if contains (u "notavailable") text || contains (u "already") text
               || contains (u "taken") text then
              {| available := Some false; ms_reason := "text_negative" |}
            else if contains (u "available") text
                    && negb (contains (u "not") text) then
              {| available := Some true; ms_reason := "text_positive" |}
            else
              {| available := None; ms_reason := "unknown" |}
      end
  | _ => {| available := None; ms_reason := "not_a_dict" |}
  end.

(** [process_email], up to the record it builds and returns.  Writing
    the record to its folder and printing the summary come after the
    classification and do not change the record; the file system and the
    console are outside the model. *)
Definition process_email (email : pystr) : M verification_record :=
  let email := str_strip email in
  ts <- now_ts ;;
  let result :=
    {| email := email; timestamp := ts; ea_check := None;
       ea_interpret := None; ms_check := None; ms_interpret := None;
       final_folder := None; note := None |} in
  ea <- check_ea_email email ;;
  let result := set_ea_check ea result in
  ea_interp <- lift (interpret_ea_response (response ea)) ;;
  let result := set_ea_interpret ea_interp result in
  if negb (ok ea) || negb (exists_ ea_interp) then
    ret (set_final DIR_EA_NOT_AVAILABLE "EA not linked or error" result)
  else
    ms <- check_ms_name email ;;
    let result := set_ms_check ms result in
    let ms_interp := interpret_ms_response (response ms) in
    let result := set_ms_interpret ms_interp result in
    if match available ms_interp with Some true => true | _ => false end then
      ret (set_final DIR_AVAILABLE "EA linked and Microsoft available" result)
    else
      ret (set_final DIR_NOT_AVAILABLE_EMAIL
             "EA linked but Microsoft not available" result).

End EmailChecker.

(* ===================================================================== *)
(** * Notions used by the statements                                      *)
(* ===================================================================== *)

(** The backoff of [_delay_retry] when it is called after history [h]:
    a sleep of [3.0 + (5.0 - 3.0) * r] seconds for the [r] that
    [random.random()] returns then. *)
Definition backoff_length (world : World) (h : history) : pyfloat :=
  uniform (float_of_Z 3) (float_of_Z 5) (random_of_bits (random_bits world h)).

Definition backoff (world : World) (h : history) : event :=
  EvDelayRetry (backoff_length world h).
Arguments backoff_length : simpl never.

(** Both probe loops run the same round, on their own query and with the
    refresh of their own landing page. *)
Section ProbeScheme.

Variable world : World.
Variables query page : request.

Definition refresh_page : M bool :=
  try_except
    (_ <- session_request world page ;;
     ret true)
    (fun _ => ret false).

Definition probe_round : M (option probe_outcome) :=
  try_except
    (r <- session_request world query ;;
     if r_status_code r =? 429 then
       reset_time <- lift (int_header r "ratelimit-reset" 60) ;;
       time_sleep reset_time ;;
       continue
     else
       let status := {| status_code := r_status_code r;
                        headers := r_headers r |} in
       let body := body_of r in
       if r_status_code r =? 200 then
         return_ {| ok := true; response := body; meta := status |}
       else
         refresh_page ;;
         _delay_retry world ;;
         continue)
    (fun e =>
       _delay_retry world ;;
       continue).

(** What one round amounts to when it starts after history [h]: the
    value it hands to the loop and the effects it performs. *)
Definition round_summary (h : history) : option probe_outcome * list event :=
  let res := respond world h query in
  let h' := h ++ [EvHttp query res] in
  match res with
  | Raised _ => (None, [EvHttp query res; backoff world h'])
  | Returned r =>
      if r_status_code r =? 429 then
        match int_header r "ratelimit-reset" 60 with
        | Normal n =>
            if (0 <=? n) && (n <=? max_sleep)
            then (None, [EvHttp query res; EvSleep n])
            else (None, [EvHttp query res; backoff world h'])
        | Raise _ => (None, [EvHttp query res; backoff world h'])
        end
      else if r_status_code r =? 200 then
        (Some {| ok := true; response := body_of r;
                 meta := {| status_code := r_status_code r;
                            headers := r_headers r |} |},
         [EvHttp query res])
      else
        let refresh := EvHttp page (respond world h' page) in
        (None, [EvHttp query res; refresh; backoff world (h' ++ [refresh])])
  end.

End ProbeScheme.

(** The effects of a round whose query is answered [r], with a status
    other than 200 and 429: the query, the refresh of the landing page
    and the backoff; and of a round whose query raises [e]: the query and
    the backoff. *)
Definition refused_round (world : World) (query page : request) (h : history)
    (r : http_response) : list event :=
  let asked := EvHttp query (Returned r) in
  let refresh := EvHttp page (respond world (h ++ [asked]) page) in
  [asked; refresh; EvDelayRetry (backoff_length world (h ++ [asked; refresh]))].

Definition raised_round (world : World) (query : request) (h : history)
    (e : exn) : list event :=
  let asked := EvHttp query (Raised e) in
  [asked; EvDelayRetry (backoff_length world (h ++ [asked]))].

(** A length from [3.0] to [5.0] seconds, both included. *)
Definition from_3_to_5 (t : pyfloat) : Prop :=
  float_le (float_of_Z 3) t = true /\ float_le t (float_of_Z 5) = true.

Definition is_backoff (e : event) : bool :=
  match e with EvDelayRetry _ => true | _ => false end.

Definition backoff_in_range (e : event) : Prop :=
  match e with EvDelayRetry t => from_3_to_5 t | _ => True end.

(** Session calls to [url] among some effects, and whether one of them was
    answered with status 200. *)
Definition is_call (url : string) (e : event) : bool :=
  match e with
  | EvHttp rq _ => String.eqb (rq_url rq) url
  | _ => false
  end.

Definition calls (url : string) (d : list event) : nat :=
  List.length (filter (is_call url) d).

Definition is_answer_200 (url : string) (e : event) : bool :=
  match e with
  | EvHttp rq (Returned r) =>
      String.eqb (rq_url rq) url && (r_status_code r =? 200)
  | _ => false
  end.

Definition answered_200 (url : string) (d : list event) : bool :=
  existsb (is_answer_200 url) d.

Definition is_sleep (e : event) : bool :=
  match e with EvSleep _ => true | _ => false end.

(** The effects a computation adds when it starts after history [h]. *)
Definition effects {A : Type} (m : M A) (h : history) : list event :=
  skipn (List.length h) (snd (m h)).

(** The round that starts after history [h] performs the effects [d] and
    does not leave the loop: whatever rounds remain are run next, and the
    code after the loop once none remains. *)
Definition goes_to_next_round {A : Type} (body : nat -> M (option A))
    (h : history) (d : list event) : Prop :=
  forall (i : nat) (rest : list nat) (orelse : M A),
    for_each (i :: rest) body orelse h = for_each rest body orelse (h ++ d).

(** The verdict of interpreter A as a JSON object again: what
    [json.loads(json.dumps(verdict))] is. *)
Definition verdict_json (v : ea_verdict) : json :=
  JDict [(u "exists", JBool (exists_ v)); (u "reason", JStr (u (ea_reason v)))].

(** The verdicts of the text heuristics at the end of interpreter A. *)
Definition heuristic_fallback (v : ea_verdict) : bool :=
  String.eqb (ea_reason v) "text_heuristic_positive"
  || String.eqb (ea_reason v) "text_heuristic_negative"
  || String.eqb (ea_reason v) "no_clear_indicator".

(** [ms_interp.get("available") is True] *)
Definition is_available (v : ms_verdict) : bool :=
  match available v with Some true => true | _ => false end.

(** The record [process_email] returns on each of its ways out. *)
Definition record_not_linked (address : pystr) (ts : string)
    (ea : probe_outcome) (va : ea_verdict) : verification_record :=
  {| email := address; timestamp := ts; ea_check := Some ea;
     ea_interpret := Some va; ms_check := None; ms_interpret := None;
     final_folder := Some DIR_EA_NOT_AVAILABLE;
     note := Some "EA not linked or error"%string |}.

Definition record_linked (address : pystr) (ts : string)
    (ea : probe_outcome) (va : ea_verdict)
    (ms : probe_outcome) (vb : ms_verdict) : verification_record :=
  {| email := address; timestamp := ts; ea_check := Some ea;
     ea_interpret := Some va; ms_check := Some ms; ms_interpret := Some vb;
     final_folder :=
       Some (if is_available vb then DIR_AVAILABLE else DIR_NOT_AVAILABLE_EMAIL);
     note :=
       Some (if is_available vb
             then "EA linked and Microsoft available"%string
             else "EA linked but Microsoft not available"%string) |}.

(* ===================================================================== *)
(** * Sample runs                                                         *)
(* ===================================================================== *)

Module Samples.

(** Lower-casing for runs whose text is ASCII throughout, where the
    Unicode tables are never consulted. *)
Definition plain_lower (s : pystr) : pystr := s.

Definition address : pystr := u "a@b.com".

Definition reply (code : Z) (hs : list (string * string)) (body : option json)
  : http_response :=
  {| r_status_code := code; r_headers := hs; r_text := []; r_json := body |}.

Definition clock (h : history) : string := "2026-01-01 00:00:00".

(** The generator yields zeros only: every backoff lasts [3.0] seconds. *)
Definition zeros (h : history) : Z := 0.

(** The generator yields ones only: [random.random()] is [1 - 2 ** -53]. *)
Definition ones (h : history) : Z := 2 ^ 53 - 1.

(** No request gets through. *)
Definition offline : World :=
  {| respond := fun _ _ => Raised RequestException; localtime := clock;
     random_bits := zeros |}.

(** No request gets through, and the generator yields ones only. *)
Definition offline_ones : World :=
  {| respond := fun _ _ => Raised RequestException; localtime := clock;
     random_bits := ones |}.

(** Every request is answered 503. *)
Definition unavailable : World :=
  {| respond := fun _ _ => Returned (reply 503 [] None); localtime := clock;
     random_bits := zeros |}.

(** An address that is registered and whose name is free. *)
Definition linked_body : json :=
  JDict [(u "status", JBool false);
         (u "message", JStr (u "register_email_existed"));
         (u "isAvailable", JBool true)].

Definition limited (reset : string) : http_response :=
  reply 429 [("RateLimit-Reset"%string, reset)] None.

(** The first request is rate limited with the given reset header; the
    later ones are answered 200 with [linked_body]. *)
Definition limited_once (reset : string) : World :=
  {| respond := fun h _ =>
       match h with
       | [] => Returned (limited reset)
       | _ :: _ => Returned (reply 200 [] (Some linked_body))
       end;
     localtime := clock; random_bits := zeros |}.

(** Every request is answered 200 with the given body. *)
Definition always (body : json) : World :=
  {| respond := fun _ _ => Returned (reply 200 [] (Some body));
     localtime := clock; random_bits := zeros |}.

Definition null_message : json := JDict [(u "message", JNull)].

End Samples.

(* ===================================================================== *)
(** * Filing and the input list                                           *)
(* ===================================================================== *)

(** [s.replace(old, new)] for a one-character [old]. *)
Definition replace_char (old : N) (new : pystr) (s : pystr) : pystr :=
  flat_map (fun c => if (c =? old)%N then new else [c]) s.

(** The class [[a-z0-9_]] of the pattern in [safe_filename]. *)
Definition is_safe_char (c : N) : bool :=
  ((97 <=? c) && (c <=? 122) || (48 <=? c) && (c <=? 57) || (c =? 95))%N.

(** [re.sub(r"[^a-z0-9_]", "_", s)] *)
Definition sub_unsafe (s : pystr) : pystr :=
  map (fun c => if is_safe_char c then c else 95%N) s.

Section Filing.

Variable unicode_lower : pystr -> pystr.

Definition safe_filename (email : pystr) : pystr :=
  let s := str_lower unicode_lower (str_strip email) in
  let s := replace_char 46 (u "_dot_") (replace_char 64 (u "_at_") s) in
  sub_unsafe s.

(** [os.path.join(a, b)] of [posixpath]. *)
Definition path_join (a b : pystr) : pystr :=
  if startswith (u "/") b then b
  else
    match a with
    | [] => b
    | _ :: _ => if startswith (u "/") (rev a) then a ++ b else a ++ u "/" ++ b
    end.

(** The end of [process_email]: the name and the place of the JSON file,
    from the folder of the record, the address and [int(time.time())]. *)
Definition result_fname (email : pystr) (epoch : Z) : pystr :=
  safe_filename email ++ u "_" ++ int_repr epoch ++ u ".json".

Definition result_dest (folder : string) (email : pystr) (epoch : Z) : pystr :=
  path_join (u folder) (result_fname email epoch).

End Filing.

(** [read_emails_from_file]: [None] is a path that is not a file, [Some]
    holds the lines the open file yields. *)
Definition read_emails_from_file (file : option (list pystr)) : list pystr :=
  match file with
  | None => []
  | Some lines =>
      map str_strip
        (filter (fun x => match str_strip x with [] => false | _ :: _ => true end)
           lines)
  end.

(** Kinds of effects, for counting. *)
Definition is_wait (e : event) : bool :=
  match e with
  | EvSleep _ | EvDelayRetry _ => true
  | EvHttp _ _ => false
  end.

(** A call of [url] answered with a status other than 200 and 429. *)
Definition is_refused (url : string) (e : event) : bool :=
  match e with
  | EvHttp rq (Returned r) =>
      String.eqb (rq_url rq) url
      && negb (r_status_code r =? 200) && negb (r_status_code r =? 429)
  | _ => false
  end.

Definition count (f : event -> bool) (d : list event) : nat :=
  List.length (filter f d).

(** The effects [process_email] may perform for an address: calls of the
    two endpoints with that address, of the two landing pages, sleeps of
    a length [time.sleep] accepts and backoffs of 3.0 to 5.0 seconds. *)
Definition expected_effect (address : pystr) (e : event) : Prop :=
  match e with
  | EvHttp rq _ =>
      rq = ea_query address \/ rq = ea_page \/
      rq = ms_query address \/ rq = ms_page
  | EvSleep n => 0 <= n <= max_sleep
  | EvDelayRetry t => from_3_to_5 t
  end.

(** The verdicts the interpreters can return. *)
Definition ea_verdicts : list ea_verdict :=
  [ {| exists_ := false; ea_reason := "not_a_dict" |};
    {| exists_ := true; ea_reason := "EA message: register_email_existed" |};
    {| exists_ := false; ea_reason := "EA message: register_email_not_existed" |};
    {| exists_ := true; ea_reason := "status=false with existed message" |};
    {| exists_ := false; ea_reason := "status=true with not_existed message" |};
    {| exists_ := true; ea_reason := "text_heuristic_positive" |};
    {| exists_ := false; ea_reason := "text_heuristic_negative" |};
    {| exists_ := false; ea_reason := "no_clear_indicator" |} ].

(** The note [process_email] writes for each bucket. *)
Definition note_of (b : bucket) : string :=
  match b with
  | NOT_LINKED => "EA not linked or error"
  | LINKED_BUT_UNAVAILABLE => "EA linked but Microsoft not available"
  | LINKED_AND_AVAILABLE => "EA linked and Microsoft available"
  end.

(* ===================================================================== *)
(** * Floats: the interval of [random.uniform(3.0, 5.0)]                  *)
(* ===================================================================== *)

(** The rounding of [SpecFloat] iterates over a binary numeral; by number
    of steps it is the iteration of [Nat.iter]. *)
Lemma iter_pos_nat (A : Type) (f : A -> A) (n : positive) (x : A) :
  iter_pos f n x = Nat.iter (Pos.to_nat n) f x.
Proof.
  revert x; induction n as [n IH | n IH |]; intro x; cbn [iter_pos].
  - rewrite !IH, Pos2Nat.inj_xI.
    replace (S (2 * Pos.to_nat n))%nat with (Pos.to_nat n + S (Pos.to_nat n))%nat by lia.
    rewrite Nat.iter_add, Nat.iter_succ_r. reflexivity.
  - rewrite !IH, Pos2Nat.inj_xO.
    replace (2 * Pos.to_nat n)%nat with (Pos.to_nat n + Pos.to_nat n)%nat by lia.
    rewrite Nat.iter_add. reflexivity.
  - reflexivity.
Qed.

Lemma digits2_pos_bounds (p : positive) :
  2 ^ (Z.pos (digits2_pos p) - 1) <= Z.pos p < 2 ^ Z.pos (digits2_pos p).
Proof.
  induction p as [p IH | p IH |]; cbn [digits2_pos].
  - rewrite Pos2Z.inj_succ, (Pos2Z.inj_xI p).
    replace (Z.succ (Z.pos (digits2_pos p)) - 1) with (Z.succ (Z.pos (digits2_pos p) - 1)) by lia.
    rewrite !Z.pow_succ_r by lia.
    revert IH. generalize (2 ^ (Z.pos (digits2_pos p) - 1)), (2 ^ Z.pos (digits2_pos p)). lia.
  - rewrite Pos2Z.inj_succ, (Pos2Z.inj_xO p).
    replace (Z.succ (Z.pos (digits2_pos p)) - 1) with (Z.succ (Z.pos (digits2_pos p) - 1)) by lia.
    rewrite !Z.pow_succ_r by lia.
    revert IH. generalize (2 ^ (Z.pos (digits2_pos p) - 1)), (2 ^ Z.pos (digits2_pos p)). lia.
  - cbn. lia.
Qed.

Lemma digits2_pos_unique (p : positive) (d : Z) :
  2 ^ (d - 1) <= Z.pos p < 2 ^ d -> Z.pos (digits2_pos p) = d.
Proof.
  intros [Hlo Hhi].
  pose proof (digits2_pos_bounds p) as [Hlo' Hhi'].
  destruct (Z.lt_trichotomy (Z.pos (digits2_pos p)) d) as [Hlt | [Heq | Hgt]].
  - assert (2 ^ Z.pos (digits2_pos p) <= 2 ^ (d - 1)) by (apply Z.pow_le_mono_r; lia).
    lia.
  - exact Heq.
  - assert (2 ^ d <= 2 ^ (Z.pos (digits2_pos p) - 1)) by (apply Z.pow_le_mono_r; lia).
    lia.
Qed.

Lemma shr_1_m (r : shr_record) :
  0 <= shr_m r -> shr_m (shr_1 r) = shr_m r / 2 /\ 0 <= shr_m (shr_1 r).
Proof.
  destruct r as [m r s]; cbn [shr_m]; intro Hm.
  destruct m as [| [p | p |] |]; cbn [shr_1 shr_m]; [| | | | lia]; (split; [| lia]).
  - reflexivity.
  - apply Z.div_unique with (r := 1); lia.
  - apply Z.div_unique with (r := 0); lia.
  - reflexivity.
Qed.

Lemma shr_iter_m (n : nat) (r : shr_record) :
  0 <= shr_m r ->
  shr_m (Nat.iter n shr_1 r) = shr_m r / 2 ^ Z.of_nat n /\
  0 <= shr_m (Nat.iter n shr_1 r).
Proof.
  intro Hm. induction n as [| n [IH IH0]].
  - cbn [Nat.iter nat_rect]. rewrite Z.div_1_r. split; [reflexivity | exact Hm].
  - change (Nat.iter (S n) shr_1 r) with (shr_1 (Nat.iter n shr_1 r)).
    destruct (shr_1_m _ IH0) as [H1 H2]. split; [| exact H2].
    rewrite H1, IH, Nat2Z.inj_succ, Z.pow_succ_r by lia.
    rewrite Z.div_div by lia. f_equal. lia.
Qed.

Lemma shr_1_even (a : Z) :
  0 <= a ->
  shr_1 (Build_shr_record (2 * a) false false) = Build_shr_record a false false.
Proof. destruct a as [| p | p]; intro; [reflexivity | reflexivity | lia]. Qed.

Lemma shr_iter_exact (n : nat) (q : Z) :
  0 <= q ->
  Nat.iter n shr_1 (Build_shr_record (q * 2 ^ Z.of_nat n) false false) =
  Build_shr_record q false false.
Proof.
  intro Hq. induction n as [| n IH].
  - cbn [Nat.iter nat_rect]. f_equal. cbn. lia.
  - rewrite Nat.iter_succ_r, Nat2Z.inj_succ, Z.pow_succ_r by lia.
    replace (q * (2 * 2 ^ Z.of_nat n)) with (2 * (q * 2 ^ Z.of_nat n)) by lia.
    rewrite shr_1_even by (apply Z.mul_nonneg_nonneg; lia). exact IH.
Qed.

Lemma fexp_normal (d : Z) : -1021 <= d -> fexp prec emax d = d - 53.
Proof. intro H. unfold fexp, emin, prec, emax. lia. Qed.

Lemma round_nearest_even_cases (m : Z) (l : location) :
  round_nearest_even m l = m \/ round_nearest_even m l = m + 1.
Proof.
  destruct l as [| []]; cbn [round_nearest_even]; auto.
  destruct (Z.even m); auto.
Qed.

(** A mantissa of 53 bits within the exponent range is kept as it is. *)
Lemma binary_round_aux_canonical (sx : bool) (m : positive) (e : Z) :
  Z.pos (digits2_pos m) = 53 -> -1074 <= e <= 971 ->
  binary_round_aux prec emax sx (Z.pos m) e loc_Exact = S754_finite sx m e.
Proof.
  intros Hd He.
  assert (Hs : shr_fexp prec emax (Z.pos m) e loc_Exact =
               (Build_shr_record (Z.pos m) false false, e)).
  { unfold shr_fexp. cbn [Zdigits2 shr_record_of_loc]. rewrite Hd.
    rewrite fexp_normal by lia. replace (53 + e - 53 - e) with 0 by lia.
    reflexivity. }
  unfold binary_round_aux. rewrite Hs. cbn [shr_m loc_of_shr_record round_nearest_even].
  rewrite Hs. cbn [shr_m].
  replace (e <=? emax - prec) with true; [reflexivity |].
  symmetry; apply Z.leb_le; unfold emax, prec; lia.
Qed.

(** Dropping [n] zero bits is exact. *)
Lemma binary_round_aux_exact (sx : bool) (q : positive) (M e n : Z) :
  0 < n -> M = Z.pos q * 2 ^ n -> Z.pos (digits2_pos q) = 53 ->
  -1074 <= e + n <= 971 ->
  binary_round_aux prec emax sx M e loc_Exact = S754_finite sx q (e + n).
Proof.
  intros Hn HM Hd He.
  pose proof (digits2_pos_bounds q) as Hq. rewrite Hd in Hq. 
  assert (Hp : 0 < 2 ^ n) by (apply Z.pow_pos_nonneg; lia).
  destruct M as [| P | P]; [lia | | lia].
  assert (HdP : Z.pos (digits2_pos P) = 53 + n).
  { apply digits2_pos_unique. replace (53 + n - 1) with (52 + n) by lia.
    rewrite !Z.pow_add_r by lia. change (53 - 1) with 52 in Hq. nia. }
  assert (Hs : shr_fexp prec emax (Z.pos P) e loc_Exact =
               (Build_shr_record (Z.pos q) false false, e + n)).
  { unfold shr_fexp. cbn [Zdigits2 shr_record_of_loc]. rewrite HdP.
    rewrite fexp_normal by lia. replace (53 + n + e - 53 - e) with n by lia.
    destruct n as [| np | np]; [lia | | lia]. cbn [shr].
    rewrite iter_pos_nat, HM, <- (positive_nat_Z np) at 1.
    rewrite shr_iter_exact by lia. reflexivity. }
  unfold binary_round_aux. rewrite Hs. cbn [shr_m loc_of_shr_record round_nearest_even].
  assert (Hs' : shr_fexp prec emax (Z.pos q) (e + n) loc_Exact =
               (Build_shr_record (Z.pos q) false false, e + n)).
  { unfold shr_fexp. cbn [Zdigits2 shr_record_of_loc]. rewrite Hd.
    rewrite fexp_normal by lia. replace (53 + (e + n) - 53 - (e + n)) with 0 by lia.
    reflexivity. }
  rewrite Hs'. cbn [shr_m].
  replace (e + n <=? emax - prec) with true; [reflexivity |].
  symmetry; apply Z.leb_le; unfold emax, prec; lia.
Qed.

(** Dropping [n] bits of a mantissa of [53 + n] bits: the result is the
    quotient or its successor, renormalized when that reaches [2 ^ 53]. *)
Lemma binary_round_aux_nearest (M e n : Z) :
  0 < n -> 2 ^ (52 + n) <= M < 2 ^ (53 + n) -> -1074 <= e + n <= 970 ->
  (exists p : positive,
      binary_round_aux prec emax false M e loc_Exact = S754_finite false p (e + n) /\
      M / 2 ^ n <= Z.pos p <= M / 2 ^ n + 1 /\ Z.pos p < 2 ^ 53) \/
  (binary_round_aux prec emax false M e loc_Exact =
     S754_finite false 4503599627370496 (e + n + 1) /\
   M / 2 ^ n = 2 ^ 53 - 1).
Proof.
  intros Hn HM He.
  assert (Hp : 0 < 2 ^ n) by (apply Z.pow_pos_nonneg; lia).
  assert (Hq : 2 ^ 52 <= M / 2 ^ n < 2 ^ 53).
  { rewrite !Z.pow_add_r in HM by lia. split.
    - apply Z.div_le_lower_bound; lia.
    - apply Z.div_lt_upper_bound; lia. }
  destruct M as [| P | P]; [lia | | lia].
  assert (HdP : Z.pos (digits2_pos P) = 53 + n).
  { apply digits2_pos_unique. replace (53 + n - 1) with (52 + n) by lia. exact HM. }
  unfold binary_round_aux.
  assert (Hs : exists rec, shr_fexp prec emax (Z.pos P) e loc_Exact = (rec, e + n) /\
                           shr_m rec = Z.pos P / 2 ^ n).
  { unfold shr_fexp. cbn [Zdigits2 shr_record_of_loc]. rewrite HdP.
    rewrite fexp_normal by lia. replace (53 + n + e - 53 - e) with n by lia.
    destruct n as [| np | np]; [lia | | lia]. cbn [shr].
    eexists; split; [reflexivity |].
    rewrite iter_pos_nat.
    destruct (shr_iter_m (Pos.to_nat np) (Build_shr_record (Z.pos P) false false))
      as [H1 _]; [cbn; lia |].
    rewrite H1, positive_nat_Z. reflexivity. }
  destruct Hs as (rec & Hs & Hrec). rewrite Hs.
  set (q := Z.pos P / 2 ^ n) in *.
  set (q' := round_nearest_even (shr_m rec) (loc_of_shr_record rec)).
  assert (Hq' : q' = q \/ q' = q + 1).
  { subst q'. rewrite Hrec. apply round_nearest_even_cases. }
  destruct (Z.eq_dec q' (2 ^ 53)) as [Htop | Hlow].
  - right. rewrite Htop. split; [| lia].
    change (2 ^ 53) with 9007199254740992.
    unfold shr_fexp. cbn [Zdigits2 shr_record_of_loc].
    change (Z.pos (digits2_pos 9007199254740992)) with 54.
    rewrite fexp_normal by lia. replace (54 + (e + n) - 53 - (e + n)) with 1 by lia.
    cbn [shr iter_pos shr_1 shr_m].
    replace (e + n + 1 <=? emax - prec) with true; [reflexivity |].
    symmetry; apply Z.leb_le; unfold emax, prec; lia.
  - left. assert (Hr : 2 ^ 52 <= q' < 2 ^ 53) by lia.
    destruct q' as [| p | p] eqn:Ep; [lia | | lia].
    exists p.
    assert (Hdp : Z.pos (digits2_pos p) = 53) by (apply digits2_pos_unique; exact Hr).
    assert (Hs' : shr_fexp prec emax (Z.pos p) (e + n) loc_Exact =
                  (Build_shr_record (Z.pos p) false false, e + n)).
    { unfold shr_fexp. cbn [Zdigits2 shr_record_of_loc]. rewrite Hdp.
      rewrite fexp_normal by lia. replace (53 + (e + n) - 53 - (e + n)) with 0 by lia.
      reflexivity. }
    rewrite Hs'. cbn [shr_m].
    replace (e + n <=? emax - prec) with true.
    + split; [reflexivity | lia].
    + symmetry; apply Z.leb_le; unfold emax, prec; lia.
Qed.

Lemma shl_align_keep (m : positive) (e e' : Z) :
  e <= e' -> shl_align m e e' = (m, e).
Proof.
  intro H. unfold shl_align. destruct (e' - e) eqn:E; try reflexivity. lia.
Qed.

Lemma shl_align_shift (m : positive) (e e' : Z) :
  e' < e ->
  exists m', shl_align m e e' = (m', e') /\ Z.pos m' = Z.pos m * 2 ^ (e - e').
Proof.
  intro H. unfold shl_align. destruct (e' - e) as [| d | d] eqn:E; [lia | lia |].
  eexists; split; [reflexivity |].
  change (Pos.iter xO m d) with (shift_pos d m).
  rewrite shift_pos_correct.
  replace (e - e') with (Z.pos d) by lia. rewrite Z.mul_comm. reflexivity.
Qed.

Lemma float_le_same_exponent (m1 m2 : positive) (e : Z) :
  Z.pos m1 <= Z.pos m2 ->
  float_le (S754_finite false m1 e) (S754_finite false m2 e) = true.
Proof.
  intro H. unfold float_le, SFleb, SFcompare. rewrite Z.compare_refl.
  change (Pos.compare_cont Eq m1 m2) with (Pos.compare m1 m2).
  destruct (Pos.compare_spec m1 m2); try reflexivity. lia.
Qed.

Lemma float_le_lower_exponent (m1 m2 : positive) (e1 e2 : Z) :
  e1 < e2 ->
  float_le (S754_finite false m1 e1) (S754_finite false m2 e2) = true.
Proof.
  intro H. unfold float_le, SFleb, SFcompare.
  rewrite (proj2 (Z.compare_lt_iff e1 e2) H). reflexivity.
Qed.

Lemma random_of_bits_in_unit_interval (k : Z) :
  in_unit_interval (random_of_bits k) = true.
Proof.
  unfold random_of_bits.
  pose proof (Z.mod_pos_bound k (2 ^ 53) eq_refl) as Hk.
  destruct (k mod 2 ^ 53) as [| p | p]; [reflexivity | | lia].
  cbn [binary_normalize]. unfold binary_round.
  pose proof (digits2_pos_bounds p) as Hd.
  assert (Hd53 : Z.pos (digits2_pos p) <= 53).
  { destruct (Z_le_gt_dec (Z.pos (digits2_pos p)) 53) as [H | H]; [exact H |].
    assert (2 ^ 53 <= 2 ^ (Z.pos (digits2_pos p) - 1)) by (apply Z.pow_le_mono_r; lia).
    lia. }
  rewrite fexp_normal by lia.
  destruct (Z.eq_dec (Z.pos (digits2_pos p)) 53) as [E | E].
  - rewrite shl_align_keep by lia.
    rewrite binary_round_aux_canonical by (try exact E; lia).
    cbn [in_unit_interval]. rewrite E. reflexivity.
  - destruct (shl_align_shift p (-53) (Z.pos (digits2_pos p) + -53 - 53)) as (m' & Hs & Hm');
      [lia |].
    rewrite Hs.
    assert (Hd' : Z.pos (digits2_pos m') = 53).
    { apply digits2_pos_unique. rewrite Hm'. change (53 - 1) with 52.
      set (d := Z.pos (digits2_pos p)) in *.
      replace (-53 - (d + -53 - 53)) with (53 - d) by lia.
      replace 52 with ((d - 1) + (53 - d)) at 1 by lia.
      replace 53 with (d + (53 - d)) at 4 by lia.
      rewrite !Z.pow_add_r by lia.
      assert (0 < 2 ^ (53 - d)) by (apply Z.pow_pos_nonneg; lia).
      revert Hd H. generalize (2 ^ (d - 1)), (2 ^ d), (2 ^ (53 - d)). nia. }
    rewrite binary_round_aux_canonical by (try exact Hd'; lia).
    cbn [in_unit_interval]. rewrite Hd'.
    replace (-1074 <=? _) with true by (symmetry; apply Z.leb_le; lia).
    replace (_ <=? -53) with true by (symmetry; apply Z.leb_le; lia).
    reflexivity.
Qed.

Lemma float_sub_5_3 :
  float_sub (float_of_Z 5) (float_of_Z 3) = S754_finite false 4503599627370496 (-51).
Proof. reflexivity. Qed.

Lemma float_mul_2 (m : positive) (e : Z) :
  Z.pos (digits2_pos m) = 53 -> -1074 <= e <= -53 ->
  float_mul (S754_finite false 4503599627370496 (-51)) (S754_finite false m e) =
  S754_finite false m (e + 1).
Proof.
  intros Hd He. unfold float_mul, SFmul. cbn [xorb].
  rewrite (binary_round_aux_exact false m _ (-51 + e) 52) by lia.
  f_equal. lia.
Qed.

(** [3.0 + x] for a normal double [x] below [2.0] lies between [3.0] and
    [5.0]. *)
Lemma float_add_3_bounds (m : positive) (e : Z) :
  Z.pos (digits2_pos m) = 53 -> -1073 <= e <= -52 ->
  let t := float_add (float_of_Z 3) (S754_finite false m e) in
  float_le (float_of_Z 3) t = true /\ float_le t (float_of_Z 5) = true.
Proof.
  intros Hd He.
  change (float_of_Z 3) with (S754_finite false 6755399441055744 (-51)).
  change (float_of_Z 5) with (S754_finite false 5629499534213120 (-50)).
  pose proof (digits2_pos_bounds m) as Hm. rewrite Hd in Hm. change (53 - 1) with 52 in Hm.
  change (2 ^ 52) with 4503599627370496 in Hm.
  change (2 ^ 53) with 9007199254740992 in Hm.
  unfold float_add, SFadd. cbv zeta.
  rewrite (Z.min_r (-51) e) by lia.
  destruct (shl_align_shift 6755399441055744 (-51) e) as (m3 & H3 & Hm3); [lia |].
  rewrite H3, (shl_align_keep m e e) by lia. cbn [fst cond_Zopp].
  set (d := -51 - e) in *.
  assert (Hd0 : 0 < d) by lia.
  assert (HP : 0 < 2 ^ d) by (apply Z.pow_pos_nonneg; lia).
  assert (HP2 : 2 <= 2 ^ d).
  { change 2 with (2 ^ 1) at 1. apply Z.pow_le_mono_r; lia. }
  change (Z.pos m3 + Z.pos m) with (Z.pos (m3 + m)).
  cbn [binary_normalize]. unfold binary_round.
  assert (Hsum : Z.pos (m3 + m) = 6755399441055744 * 2 ^ d + Z.pos m)
    by (rewrite Pos2Z.inj_add, Hm3; reflexivity).
  destruct (Z_lt_ge_dec (Z.pos (m3 + m)) (2 ^ (53 + d))) as [Hlow | Hhigh].
  - (* below 4.0 *)
    assert (Hrange : 2 ^ (52 + d) <= Z.pos (m3 + m) < 2 ^ (53 + d)).
    { split; [| exact Hlow]. rewrite Hsum, Z.pow_add_r by lia.
      change (2 ^ 52) with 4503599627370496.
      revert HP. generalize (2 ^ d). lia. }
    assert (Hdig : Z.pos (digits2_pos (m3 + m)) = 53 + d).
    { apply digits2_pos_unique. replace (53 + d - 1) with (52 + d) by lia. exact Hrange. }
    rewrite Hdig, fexp_normal, shl_align_keep by lia.
    assert (Hq : 6755399441055744 <= Z.pos (m3 + m) / 2 ^ d).
    { apply Z.div_le_lower_bound; [exact HP |]. rewrite Hsum.
      revert HP. generalize (2 ^ d). lia. }
    destruct (binary_round_aux_nearest (Z.pos (m3 + m)) e d Hd0 Hrange)
      as [(p & Hr & Hp & Hp53) | (Hr & _)]; [lia | |]; rewrite Hr.
    + replace (e + d) with (-51) by lia. split.
      * apply float_le_same_exponent. lia.
      * apply float_le_lower_exponent. lia.
    + replace (e + d + 1) with (-50) by lia. split.
      * apply float_le_lower_exponent. lia.
      * apply float_le_same_exponent. lia.
  - (* 4.0 and above *)
    assert (Hrange : 2 ^ (52 + (d + 1)) <= Z.pos (m3 + m) < 2 ^ (53 + (d + 1))).
    { replace (52 + (d + 1)) with (53 + d) by lia. split; [lia |].
      rewrite Hsum. replace (53 + (d + 1)) with (54 + d) by lia.
      rewrite Z.pow_add_r by lia. change (2 ^ 54) with 18014398509481984.
      revert HP2. generalize (2 ^ d). lia. }
    assert (Hdig : Z.pos (digits2_pos (m3 + m)) = 53 + (d + 1)).
    { apply digits2_pos_unique. replace (53 + (d + 1) - 1) with (52 + (d + 1)) by lia.
      exact Hrange. }
    rewrite Hdig, fexp_normal, shl_align_keep by lia.
    assert (Hq : Z.pos (m3 + m) / 2 ^ (d + 1) < 5629499534213120).
    { apply Z.div_lt_upper_bound; [apply Z.pow_pos_nonneg; lia |].
      rewrite Hsum, Z.pow_add_r by lia. change (2 ^ 1) with 2.
      revert HP2. generalize (2 ^ d). lia. }
    destruct (binary_round_aux_nearest (Z.pos (m3 + m)) e (d + 1)) as
      [(p & Hr & Hp & Hp53) | (Hr & Habs)]; [lia | exact Hrange | lia | |].
    + rewrite Hr. replace (e + (d + 1)) with (-50) by lia. split.
      * apply float_le_lower_exponent. lia.
      * apply float_le_same_exponent. lia.
    + change (2 ^ 53 - 1) with 9007199254740991 in Habs. lia.
Qed.

(** [random.uniform(3.0, 5.0)] lies in the closed interval from [3.0] to
    [5.0], whatever the generator yields. *)
Lemma random_uniform_3_5_bounds (k : Z) :
  float_le (float_of_Z 3) (uniform (float_of_Z 3) (float_of_Z 5) (random_of_bits k)) = true /\
  float_le (uniform (float_of_Z 3) (float_of_Z 5) (random_of_bits k)) (float_of_Z 5) = true.
Proof.
  unfold uniform. rewrite float_sub_5_3.
  pose proof (random_of_bits_in_unit_interval k) as Hr.
  destruct (random_of_bits k) as [[|] | | | [|] m e]; try discriminate Hr.
  - split; reflexivity.
  - cbn [in_unit_interval] in Hr.
    apply andb_true_iff in Hr. destruct Hr as [Hr He2].
    apply andb_true_iff in Hr. destruct Hr as [Hd He1].
    apply Z.eqb_eq in Hd. apply Z.leb_le in He1, He2.
    rewrite float_mul_2 by (try exact Hd; lia).
    apply float_add_3_bounds; [exact Hd | lia].
Qed.

(** It reaches [5.0]: on the largest float below [1.0] the sum is rounded
    up to it. *)
Lemma random_uniform_3_5_reaches_5 :
  uniform (float_of_Z 3) (float_of_Z 5) (random_of_bits (2 ^ 53 - 1)) = float_of_Z 5.
Proof. vm_compute. reflexivity. Qed.

Lemma backoff_length_bounds (world : World) (h : history) :
  float_le (float_of_Z 3) (backoff_length world h) = true /\
  float_le (backoff_length world h) (float_of_Z 5) = true.
Proof. apply random_uniform_3_5_bounds. Qed.

Lemma _delay_retry_run (world : World) (h : history) :
  _delay_retry world h = (Normal tt, h ++ [backoff world h]).
Proof. reflexivity. Qed.

(* ===================================================================== *)
(** * The text of [json.dumps]                                            *)
(* ===================================================================== *)

(** Induction on JSON values that reaches into lists and dicts. *)
Lemma json_nested_ind (P : json -> Prop) :
  P JNull ->
  (forall b, P (JBool b)) ->
  (forall z, P (JInt z)) ->
  (forall lit, P (JFloat lit)) ->
  (forall s, P (JStr s)) ->
  (forall l, Forall P l -> P (JList l)) ->
  (forall d, Forall (fun kv => P (snd kv)) d -> P (JDict d)) ->
  forall j, P j.
Proof.
  intros HN HB HI HF HS HL HD. fix IH 1.
  intros [| b | z | lit | s | l | d];
    [exact HN | apply HB | apply HI | apply HF | apply HS | |].
  - apply HL. induction l as [| x l IHl]; constructor; [apply IH | exact IHl].
  - apply HD. induction d as [| [k v] d IHd]; constructor; [apply IH | exact IHd].
Qed.

Lemma all_ascii_app (a b : pystr) :
  forallb is_ascii (a ++ b) = forallb is_ascii a && forallb is_ascii b.
Proof. apply forallb_app. Qed.

Lemma hexdigit_ascii (n : N) : (n < 16)%N -> is_ascii (hexdigit n) = true.
Proof.
  intros Hn. unfold is_ascii, hexdigit.
  destruct (n <? 10)%N; apply N.ltb_lt; lia.
Qed.

Lemma hex4_ascii (n : N) : forallb is_ascii (hex4 n) = true.
Proof.
  unfold hex4. cbn [forallb].
  rewrite !hexdigit_ascii by (apply N.mod_lt; discriminate). reflexivity.
Qed.

Lemma escape_char_ascii (c : N) : forallb is_ascii (escape_char c) = true.
Proof.
  unfold escape_char.
  repeat match goal with
         | |- context [if ?b then _ else _] => destruct b eqn:?
         end;
    rewrite ?all_ascii_app, ?hex4_ascii; try reflexivity.
  cbn. rewrite andb_true_r. unfold is_ascii. apply N.ltb_lt.
  match goal with
  | H : (_ && (c <=? 126)%N) = true |- _ =>
      apply andb_prop in H; destruct H as [_ H]; apply N.leb_le in H; lia
  end.
Qed.

Lemma encode_basestring_ascii_ascii (s : pystr) :
  forallb is_ascii (encode_basestring_ascii s) = true.
Proof.
  unfold encode_basestring_ascii. rewrite !all_ascii_app. cbn [forallb].
  replace (forallb is_ascii (flat_map escape_char s)) with true; [reflexivity |].
  symmetry. induction s as [| c s IH]; [reflexivity |].
  cbn [flat_map]. now rewrite all_ascii_app, escape_char_ascii, IH.
Qed.

Lemma uint_text_ascii (d : Decimal.uint) :
  forallb is_ascii (u (NilEmpty.string_of_uint d)) = true.
Proof. induction d; cbn; auto. Qed.

Lemma int_repr_ascii (z : Z) : forallb is_ascii (int_repr z) = true.
Proof.
  unfold int_repr, NilZero.string_of_int, NilZero.string_of_uint.
  destruct (Z.to_int z) as [d | d]; destruct d; cbn; auto using uint_text_ascii.
Qed.

(** [json.dumps] writes ASCII only, provided the literals of the floats
    are ASCII, as the literals of floats are. *)
Lemma json_dumps_ascii (j : json) :
  floats_ascii j = true -> forallb is_ascii (json_dumps j) = true.
Proof.
  induction j as [| b | z | lit | s | l IHl | d IHd] using json_nested_ind;
    intros Hwf.
  - reflexivity.
  - now destruct b.
  - apply int_repr_ascii.
  - exact Hwf.
  - apply encode_basestring_ascii_ascii.
  - cbn [json_dumps]. rewrite !all_ascii_app. cbn [forallb u]. cbn in Hwf.
    rewrite andb_true_r. cbn [is_ascii]. 
    induction IHl as [| x l Hx _ IH]; [reflexivity |].
    cbn [forallb] in Hwf. apply andb_prop in Hwf. destruct Hwf as [Hwx Hwl].
    rewrite all_ascii_app, (Hx Hwx). cbn [andb].
    destruct l as [| y l']; [reflexivity |].
    rewrite all_ascii_app. cbn [forallb u is_ascii]. exact (IH Hwl).
  - cbn [json_dumps]. rewrite !all_ascii_app. cbn [forallb u]. cbn in Hwf.
    rewrite andb_true_r.
    induction IHd as [| [k v] d Hv _ IH]; [reflexivity |].
    cbn [forallb snd] in Hwf, Hv. apply andb_prop in Hwf.
    destruct Hwf as [Hwv Hwd].
    rewrite !all_ascii_app, encode_basestring_ascii_ascii, (Hv Hwv).
    cbn [andb forallb u]. 
    destruct d as [| kv d']; [reflexivity |].
    rewrite all_ascii_app. cbn [forallb u is_ascii]. exact (IH Hwd).
Qed.

(** So the second [.lower()] of the interpreters, the one on the text of
    [json.dumps], never consults the Unicode tables. *)
Lemma lower_json_dumps (unicode_lower : pystr -> pystr) (j : json) :
  floats_ascii j = true ->
  str_lower unicode_lower (json_dumps j) = map ascii_lower (json_dumps j).
Proof. intros Hwf. unfold str_lower. now rewrite json_dumps_ascii. Qed.

Lemma interpret_ms_response_tables_free
    (lower1 lower2 : pystr -> pystr) (body : json) :
  floats_ascii body = true ->
  interpret_ms_response lower1 body = interpret_ms_response lower2 body.
Proof.
  intros Hwf. destruct body as [| b | z | lit | s | l | d]; try reflexivity.
  unfold interpret_ms_response. now rewrite !lower_json_dumps.
Qed.

(* ===================================================================== *)
(** * The probes                                                          *)
(* ===================================================================== *)

Lemma app_two {A : Type} (h : list A) (a b : A) :
  (h ++ [a]) ++ [b] = h ++ [a; b].
Proof. now rewrite <- app_assoc. Qed.

Lemma app_three {A : Type} (h : list A) (a b c : A) :
  ((h ++ [a]) ++ [b]) ++ [c] = h ++ [a; b; c].
Proof. now rewrite <- !app_assoc. Qed.

Lemma calls_app url d1 d2 : calls url (d1 ++ d2) = (calls url d1 + calls url d2)%nat.
Proof. unfold calls. now rewrite filter_app, length_app. Qed.

Lemma answered_200_app url d1 d2 :
  answered_200 url (d1 ++ d2) = answered_200 url d1 || answered_200 url d2.
Proof. apply existsb_app. Qed.

Section ProbeFacts.

Variable world : World.
Variables query page : request.

Abbreviation round := (probe_round world query page).
Abbreviation summary := (round_summary world query page).

(** A round never raises: it performs the effects of its summary and
    hands the summary's value to the loop. *)
Lemma probe_round_summary h :
  round h = (Normal (fst (summary h)), h ++ snd (summary h)).
Proof.
  unfold probe_round, round_summary, try_except, bind, session_request,
    refresh_page, _delay_retry, random_uniform, random_random, backoff,
    backoff_length, continue, return_, ret, emit, lift, time_sleep.
  destruct (respond world h query) as [e | r]; cbn.
  - now rewrite app_two.
  - destruct (r_status_code r =? 429); cbn.
    + destruct (int_header r "ratelimit-reset" 60) as [n | e]; cbn.
      * destruct (n <? 0) eqn:Hneg; cbn.
        { assert ((0 <=? n) = false) as -> by lia. cbn. now rewrite app_two. }
        assert ((0 <=? n) = true) as -> by lia. cbn.
        destruct (max_sleep <? n) eqn:Hbig; cbn.
        { assert ((n <=? max_sleep) = false) as -> by lia. now rewrite app_two. }
        assert ((n <=? max_sleep) = true) as -> by lia. now rewrite app_two.
      * now rewrite app_two.
    + destruct (r_status_code r =? 200); cbn; [reflexivity |].
      unfold try_except, bind, session_request, ret.
      destruct (respond world _ page); cbn; now rewrite app_three.
Qed.

Abbreviation loop items :=
  (for_each items (fun _ : nat => round) (ret failed_outcome)).

Lemma loop_step (i : nat) rest h :
  loop (i :: rest) h =
  match fst (summary h) with
  | Some o => (Normal o, h ++ snd (summary h))
  | None => loop rest (h ++ snd (summary h))
  end.
Proof.
  cbn [for_each]. unfold bind at 1. rewrite probe_round_summary.
  now destruct (fst (summary h)).
Qed.

Hypothesis page_is_not_query : String.eqb (rq_url page) (rq_url query) = false.

Abbreviation url := (rq_url query).

(** Each round calls the query URL once. *)
Lemma summary_calls h : calls url (snd (summary h)) = 1%nat.
Proof.
  unfold round_summary, calls.
  destruct (respond world h query) as [e | r]; cbn;
    rewrite ?String.eqb_refl; cbn; [reflexivity |].
  destruct (r_status_code r =? 429).
  - destruct (int_header r "ratelimit-reset" 60) as [n | e];
      [destruct ((0 <=? n) && (n <=? max_sleep)) |];
      cbn; rewrite String.eqb_refl; reflexivity.
  - destruct (r_status_code r =? 200); cbn;
      rewrite ?String.eqb_refl, ?page_is_not_query; reflexivity.
Qed.

(** A round calls nothing but the query and the landing page. *)
Lemma summary_other_calls h url' :
  String.eqb (rq_url query) url' = false ->
  String.eqb (rq_url page) url' = false ->
  calls url' (snd (summary h)) = 0%nat.
Proof.
  intros Hq Hp. unfold round_summary, calls.
  destruct (respond world h query) as [e | r]; cbn; rewrite ?Hq; cbn;
    [reflexivity |].
  destruct (r_status_code r =? 429).
  - destruct (int_header r "ratelimit-reset" 60) as [n | e];
      [destruct ((0 <=? n) && (n <=? max_sleep)) |];
      cbn; rewrite Hq; reflexivity.
  - destruct (r_status_code r =? 200); cbn; rewrite ?Hq, ?Hp; reflexivity.
Qed.

(** A round leaves the loop exactly when its query is answered 200. *)
Lemma summary_value h :
  match fst (summary h) with
  | Some o =>
      ok o = true /\ status_code (meta o) = 200 /\
      answered_200 url (snd (summary h)) = true
  | None => answered_200 url (snd (summary h)) = false
  end.
Proof.
  unfold round_summary, answered_200.
  destruct (respond world h query) as [e | r]; cbn; [reflexivity |].
  destruct (r_status_code r =? 429) eqn:H429.
  - assert ((r_status_code r =? 200) = false) as H200 by lia.
    destruct (int_header r "ratelimit-reset" 60) as [n | e];
      [destruct ((0 <=? n) && (n <=? max_sleep)) |];
      cbn; rewrite H200, andb_false_r; reflexivity.
  - destruct (r_status_code r =? 200) eqn:H200; cbn.
    + rewrite String.eqb_refl, H200. repeat split. lia.
    + rewrite H200, andb_false_r. cbn.
      destruct (respond world _ page); cbn;
        rewrite ?page_is_not_query; reflexivity.
Qed.

(** The loop over any list of rounds: it returns normally; it calls the
    query URL at most once per round; it yields the failed outcome, after
    all of its rounds, exactly when no call was answered 200. *)
Lemma probe_loop_spec items : forall h : history,
  exists (o : probe_outcome) (d : list event),
    loop items h = (Normal o, h ++ d) /\
    (calls url d <= List.length items)%nat /\
    (items <> [] -> (1 <= calls url d)%nat) /\
    (answered_200 url d = false ->
       o = failed_outcome /\ calls url d = List.length items) /\
    (answered_200 url d = true ->
       ok o = true /\ status_code (meta o) = 200) /\
    (forall url', String.eqb (rq_url query) url' = false ->
                  String.eqb (rq_url page) url' = false ->
                  calls url' d = 0%nat).
Proof.
  induction items as [| i rest IH]; intros h.
  - exists failed_outcome, []. rewrite app_nil_r. cbn.
    split; [reflexivity |]. split; [lia |]. split; [congruence |].
    split; [auto |]. split; [discriminate | reflexivity].
  - rewrite loop_step.
    pose proof (summary_value h) as Hv.
    pose proof (summary_calls h) as Hc.
    pose proof (summary_other_calls h) as Ho.
    destruct (fst (summary h)) as [o |].
    + destruct Hv as (Hok & Hst & Ha).
      exists o, (snd (summary h)). rewrite Hc, Ha. cbn [List.length].
      split; [reflexivity |]. split; [lia |]. split; [lia |].
      split; [discriminate |]. split; auto.
    + destruct (IH (h ++ snd (summary h)))
        as (o & d & Hrun & Hle & Hge & Hfail & Hgood & Hoth).
      exists o, (snd (summary h) ++ d).
      rewrite app_assoc, calls_app, answered_200_app, Hc, Hv.
      cbn [List.length orb].
      split; [assumption |]. split; [lia |]. split; [lia |].
      split; [| split; [assumption |]].
      * intros Hn. destruct (Hfail Hn) as [-> ->]. split; reflexivity.
      * intros url' Hq Hp.
        rewrite calls_app, Ho, Hoth by assumption. reflexivity.
Qed.

End ProbeFacts.

Lemma check_ea_email_rounds world address :
  check_ea_email world address =
  for_each (seq 0 3) (fun _ => probe_round world (ea_query address) ea_page)
    (ret failed_outcome).
Proof. reflexivity. Qed.

Lemma check_ms_name_rounds world address :
  check_ms_name world address =
  for_each (seq 0 3) (fun _ => probe_round world (ms_query address) ms_page)
    (ret failed_outcome).
Proof. reflexivity. Qed.

Lemma check_ea_email_spec world address (h : history) :
  exists (o : probe_outcome) (d : list event),
    check_ea_email world address h = (Normal o, h ++ d) /\
    (1 <= calls EA_CHECK_URL d <= 3)%nat /\
    (answered_200 EA_CHECK_URL d = false ->
       o = failed_outcome /\ calls EA_CHECK_URL d = 3%nat) /\
    (answered_200 EA_CHECK_URL d = true ->
       ok o = true /\ status_code (meta o) = 200) /\
    calls MS_CHECK_URL d = 0%nat.
Proof.
  rewrite check_ea_email_rounds.
  destruct (probe_loop_spec world (ea_query address) ea_page eq_refl (seq 0 3) h)
    as (o & d & Hrun & Hle & Hge & Hfail & Hgood & Hoth).
  exists o, d. cbn in Hle, Hfail.
  split; [assumption |]. split; [split; [apply Hge; discriminate | assumption] |].
  split; [assumption |]. split; [assumption |].
  apply Hoth; reflexivity.
Qed.

Lemma check_ms_name_spec world address (h : history) :
  exists (o : probe_outcome) (d : list event),
    check_ms_name world address h = (Normal o, h ++ d) /\
    (1 <= calls MS_CHECK_URL d <= 3)%nat /\
    (answered_200 MS_CHECK_URL d = false ->
       o = failed_outcome /\ calls MS_CHECK_URL d = 3%nat) /\
    (answered_200 MS_CHECK_URL d = true ->
       ok o = true /\ status_code (meta o) = 200) /\
    calls EA_CHECK_URL d = 0%nat.
Proof.
  rewrite check_ms_name_rounds.
  destruct (probe_loop_spec world (ms_query address) ms_page eq_refl (seq 0 3) h)
    as (o & d & Hrun & Hle & Hge & Hfail & Hgood & Hoth).
  exists o, d. cbn in Hle, Hfail.
  split; [assumption |]. split; [split; [apply Hge; discriminate | assumption] |].
  split; [assumption |]. split; [assumption |].
  apply Hoth; reflexivity.
Qed.

(** A round of either probe that hands nothing to the loop lets the loop
    go on. *)
Lemma round_goes_on world query page h d :
  round_summary world query page h = (None, d) ->
  goes_to_next_round (fun _ : nat => probe_round world query page) h d.
Proof.
  intros Hs i rest orelse. cbn [for_each]. unfold bind at 1.
  rewrite probe_round_summary, Hs. reflexivity.
Qed.

(* ===================================================================== *)
(** * Retry, rate limit and exhaustion (4.1)                              *)
(* ===================================================================== *)

Lemma effects_run {A : Type} (m : M A) (h : history) (c : completion A) d :
  m h = (c, h ++ d) -> effects m h = d.
Proof.
  intros Hrun. unfold effects. rewrite Hrun. cbn [snd].
  rewrite skipn_app, skipn_all, Nat.sub_diag. reflexivity.
Qed.

Lemma in_sleep_range n :
  0 <= n <= max_sleep -> (0 <=? n) && (n <=? max_sleep) = true.
Proof. intros [H0 H1]. apply andb_true_intro. split; lia. Qed.

Lemma rate_limited_summary world query page h r n :
  respond world h query = Returned r ->
  r_status_code r = 429 ->
  int_header r "ratelimit-reset" 60 = Normal n ->
  0 <= n <= max_sleep ->
  round_summary world query page h =
  (None, [EvHttp query (Returned r); EvSleep n]).
Proof.
  intros Hres Hst Hint Hn. unfold round_summary.
  rewrite Hres, Hst, Hint, (in_sleep_range n Hn). reflexivity.
Qed.

Lemma refused_summary world query page h r :
  respond world h query = Returned r ->
  r_status_code r <> 200 ->
  r_status_code r <> 429 ->
  round_summary world query page h =
  (None, refused_round world query page h r).
Proof.
  intros Hres H200 H429. unfold round_summary. rewrite Hres.
  destruct (r_status_code r =? 429) eqn:E1;
    [apply Z.eqb_eq in E1; contradiction |].
  destruct (r_status_code r =? 200) eqn:E2;
    [apply Z.eqb_eq in E2; contradiction |].
  unfold refused_round, backoff. cbv zeta. now rewrite app_two.
Qed.

Lemma raised_summary world query page h e :
  respond world h query = Raised e ->
  round_summary world query page h =
  (None, raised_round world query h e).
Proof. intros Hres. unfold round_summary. now rewrite Hres. Qed.

Lemma int_header_reads r name default n :
  int_header r name default = Normal n <->
  (headers_get name (r_headers r) = None /\ n = default) \/
  (exists v, headers_get name (r_headers r) = Some v /\ int_of_str v = Some n).
Proof.
  unfold int_header. destruct (headers_get name (r_headers r)) as [v |].
  - destruct (int_of_str v) as [m |] eqn:Hv; split.
    + intros [= <-]. right. now exists v.
    + intros [[[=] _] | (v' & [= <-] & Hn)]. congruence.
    + discriminate.
    + intros [[[=] _] | (v' & [= <-] & Hn)]. congruence.
  - split.
    + intros [= <-]. now left.
    + intros [[_ ->] | (v' & [=] & _)]. reflexivity.
Qed.

(** C5 (as amended): a round answered 429 whose [ratelimit-reset] header is
    absent, or holds an integer that [time.sleep] accepts, sleeps exactly
    that number of seconds (60 without the header) and then lets the loop
    go on with the rounds that remain, with no refresh and no backoff;
    both probes; a probe never calls its endpoint more than 3 times. *)
Theorem rate_limit_sleep_then_next_round
    (world : World) (address : pystr) (h : history) (r : http_response) (n : Z) :
  r_status_code r = 429 ->
  int_header r "ratelimit-reset" 60 = Normal n ->
  0 <= n <= max_sleep ->
  ((headers_get "ratelimit-reset" (r_headers r) = None /\ n = 60) \/
   (exists v, headers_get "ratelimit-reset" (r_headers r) = Some v /\
              int_of_str v = Some n)) /\
  (respond world h (ea_query address) = Returned r ->
   goes_to_next_round (check_ea_email_attempt world address) h
     [EvHttp (ea_query address) (Returned r); EvSleep n]) /\
  (respond world h (ms_query address) = Returned r ->
   goes_to_next_round (check_ms_name_attempt world address) h
     [EvHttp (ms_query address) (Returned r); EvSleep n]) /\
  (forall h0 : history,
     (calls EA_CHECK_URL (effects (check_ea_email world address) h0) <= 3)%nat /\
     (calls MS_CHECK_URL (effects (check_ms_name world address) h0) <= 3)%nat).
Proof.
  intros Hst Hint Hn.
  split; [now apply int_header_reads |].
  split; [| split].
  - intros Hres.
    apply (round_goes_on world (ea_query address) ea_page).
    now apply rate_limited_summary.
  - intros Hres.
    apply (round_goes_on world (ms_query address) ms_page).
    now apply rate_limited_summary.
  - intros h0.
    destruct (check_ea_email_spec world address h0) as (o & d & Hrun & [_ Hle] & _).
    destruct (check_ms_name_spec world address h0) as (o' & d' & Hrun' & [_ Hle'] & _).
    now rewrite (effects_run _ _ _ _ Hrun), (effects_run _ _ _ _ Hrun').
Qed.

(** Example 6 of the specification: a 429 with [ratelimit-reset: 2] makes
    the probe sleep 2 seconds and ask again. *)
Example rate_limited_once_run :
  check_ea_email (Samples.limited_once "2") Samples.address [] =
  (Normal {| ok := true; response := Samples.linked_body;
             meta := {| status_code := 200; headers := [] |} |},
   [EvHttp (ea_query Samples.address) (Returned (Samples.limited "2"));
    EvSleep 2;
    EvHttp (ea_query Samples.address)
      (Returned (Samples.reply 200 [] (Some Samples.linked_body)))]).
Proof. reflexivity. Qed.

Lemma rate_limit_sleep_witness :
  r_status_code (Samples.limited "2") = 429 /\
  int_header (Samples.limited "2") "ratelimit-reset" 60 = Normal 2 /\
  0 <= 2 <= max_sleep /\
  respond (Samples.limited_once "2") [] (ea_query Samples.address) =
    Returned (Samples.limited "2") /\
  goes_to_next_round
    (check_ea_email_attempt (Samples.limited_once "2") Samples.address) []
    [EvHttp (ea_query Samples.address) (Returned (Samples.limited "2"));
     EvSleep 2].
Proof.
  assert (0 <= 2 <= max_sleep) as Hn by (unfold max_sleep; lia).
  split; [reflexivity |]. split; [reflexivity |]. split; [exact Hn |].
  split; [reflexivity |].
  apply (rate_limit_sleep_then_next_round (Samples.limited_once "2")
           Samples.address [] (Samples.limited "2") 2 eq_refl eq_refl Hn).
  reflexivity.
Defined.

(** C5, as stated, fails: a 429 whose [ratelimit-reset] is [1.5] is not
    followed by a sleep of that length.  [int] refuses the text, the
    handler of the round waits its own backoff, and the whole probe run
    contains no sleep of a server-given length. *)
Lemma rate_limit_fractional_reset_not_slept :
  respond (Samples.limited_once "1.5") [] (ea_query Samples.address) =
    Returned (Samples.limited "1.5") /\
  r_status_code (Samples.limited "1.5") = 429 /\
  headers_get "ratelimit-reset" (r_headers (Samples.limited "1.5")) = Some "1.5"%string /\
  check_ea_email_attempt (Samples.limited_once "1.5") Samples.address 0 [] =
    (Normal None,
     [EvHttp (ea_query Samples.address) (Returned (Samples.limited "1.5"));
      EvDelayRetry (float_of_Z 3)]) /\
  existsb is_sleep
    (effects (check_ea_email (Samples.limited_once "1.5") Samples.address) []) = false.
Proof. repeat split; reflexivity. Qed.

(** C6 (as amended): a round answered with a status other than 200 and 429
    refreshes the landing page of its service (whatever that request
    brings), waits the backoff of [_delay_retry] and lets the loop go on;
    a round whose request raises waits the backoff only, without refresh.
    The backoff lasts [random.uniform(3.0, 5.0)] seconds, a length from
    [3.0] to [5.0], both included.  Both probes; either way the round is
    one of the 3 the loop has. *)
Theorem failed_round_backoff_then_next_round
    (world : World) (address : pystr) (h : history) :
  (forall r, respond world h (ea_query address) = Returned r ->
     r_status_code r <> 200 -> r_status_code r <> 429 ->
     goes_to_next_round (check_ea_email_attempt world address) h
       (refused_round world (ea_query address) ea_page h r)) /\
  (forall e, respond world h (ea_query address) = Raised e ->
     goes_to_next_round (check_ea_email_attempt world address) h
       (raised_round world (ea_query address) h e)) /\
  (forall r, respond world h (ms_query address) = Returned r ->
     r_status_code r <> 200 -> r_status_code r <> 429 ->
     goes_to_next_round (check_ms_name_attempt world address) h
       (refused_round world (ms_query address) ms_page h r)) /\
  (forall e, respond world h (ms_query address) = Raised e ->
     goes_to_next_round (check_ms_name_attempt world address) h
       (raised_round world (ms_query address) h e)) /\
  (forall h0 : history,
     backoff_length world h0 =
       float_add (float_of_Z 3)
         (float_mul (float_sub (float_of_Z 5) (float_of_Z 3))
            (random_of_bits (random_bits world h0))) /\
     from_3_to_5 (backoff_length world h0)) /\
  (calls EA_CHECK_URL (effects (check_ea_email world address) h) <= 3)%nat /\
  (calls MS_CHECK_URL (effects (check_ms_name world address) h) <= 3)%nat.
Proof.
  split; [| split; [| split; [| split; [| split; [| split]]]]].
  - intros r Hres H200 H429.
    apply (round_goes_on world (ea_query address) ea_page).
    now apply refused_summary.
  - intros e Hres.
    apply (round_goes_on world (ea_query address) ea_page).
    now apply raised_summary.
  - intros r Hres H200 H429.
    apply (round_goes_on world (ms_query address) ms_page).
    now apply refused_summary.
  - intros e Hres.
    apply (round_goes_on world (ms_query address) ms_page).
    now apply raised_summary.
  - intros h0. split; [reflexivity | apply backoff_length_bounds].
  - destruct (check_ea_email_spec world address h) as (o & d & Hrun & [_ Hle] & _).
    now rewrite (effects_run _ _ _ _ Hrun).
  - destruct (check_ms_name_spec world address h) as (o & d & Hrun & [_ Hle] & _).
    now rewrite (effects_run _ _ _ _ Hrun).
Qed.

Lemma failed_round_backoff_witness :
  respond Samples.unavailable [] (ea_query Samples.address) =
    Returned (Samples.reply 503 [] None) /\
  r_status_code (Samples.reply 503 [] None) <> 200 /\
  r_status_code (Samples.reply 503 [] None) <> 429 /\
  goes_to_next_round (check_ea_email_attempt Samples.unavailable Samples.address) []
    [EvHttp (ea_query Samples.address) (Returned (Samples.reply 503 [] None));
     EvHttp ea_page (Returned (Samples.reply 503 [] None));
     EvDelayRetry (float_of_Z 3)].
Proof.
  assert (r_status_code (Samples.reply 503 [] None) <> 200) as H200 by discriminate.
  assert (r_status_code (Samples.reply 503 [] None) <> 429) as H429 by discriminate.
  split; [reflexivity |]. split; [exact H200 |]. split; [exact H429 |].
  exact (proj1 (failed_round_backoff_then_next_round Samples.unavailable
                  Samples.address []) (Samples.reply 503 [] None) eq_refl H200 H429).
Defined.

(** C6, as stated, fails twice.  A round whose request raises is followed
    by the backoff alone: with the network down the probe makes its three
    requests and never touches the landing page.  And the backoff is not
    below [5.0]: when [random.random()] returns [1 - 2 ** -53], the
    largest float it can, [3.0 + 2.0 * r] is rounded to [5.0]. *)
Lemma transport_failure_backoff_of_5_without_refresh :
  check_ea_email Samples.offline_ones Samples.address [] =
    (Normal failed_outcome,
     [EvHttp (ea_query Samples.address) (Raised RequestException);
      EvDelayRetry (float_of_Z 5);
      EvHttp (ea_query Samples.address) (Raised RequestException);
      EvDelayRetry (float_of_Z 5);
      EvHttp (ea_query Samples.address) (Raised RequestException);
      EvDelayRetry (float_of_Z 5)]) /\
  calls EA_REFERER_PAGE
    (effects (check_ea_email Samples.offline_ones Samples.address) []) = 0%nat /\
  calls MS_REFERER_PAGE
    (effects (check_ms_name Samples.offline_ones Samples.address) []) = 0%nat /\
  random_of_bits (Samples.ones []) =
    float_sub (float_of_Z 1) (S754_finite false 1 (-53)) /\
  float_lt (random_of_bits (Samples.ones [])) (float_of_Z 1) = true /\
  float_lt (float_of_Z 5) (float_of_Z 5) = false.
Proof. repeat split; vm_compute; reflexivity. Qed.

(** C7: a probe always returns normally, after at most 3 calls of its
    endpoint; when none of its calls is answered 200, that is, when it has
    used up its 3 rounds, what it returns is [ok = False] with status code
    0, the empty response and no headers; both probes. *)
Theorem exhausted_probe_returns_failed_outcome
    (world : World) (address : pystr) (h : history) :
  (exists (o : probe_outcome) (d : list event),
     check_ea_email world address h = (Normal o, h ++ d) /\
     (calls EA_CHECK_URL d <= 3)%nat /\
     (ok o = false <-> answered_200 EA_CHECK_URL d = false) /\
     (answered_200 EA_CHECK_URL d = false ->
        calls EA_CHECK_URL d = 3%nat /\
        ok o = false /\ status_code (meta o) = 0 /\
        response o = JDict [] /\ headers (meta o) = [])) /\
  (exists (o : probe_outcome) (d : list event),
     check_ms_name world address h = (Normal o, h ++ d) /\
     (calls MS_CHECK_URL d <= 3)%nat /\
     (ok o = false <-> answered_200 MS_CHECK_URL d = false) /\
     (answered_200 MS_CHECK_URL d = false ->
        calls MS_CHECK_URL d = 3%nat /\
        ok o = false /\ status_code (meta o) = 0 /\
        response o = JDict [] /\ headers (meta o) = [])).
Proof.
  split.
  - destruct (check_ea_email_spec world address h)
      as (o & d & Hrun & [_ Hle] & Hfail & Hgood & _).
    exists o, d. split; [assumption |]. split; [assumption |]. split.
    + destruct (answered_200 EA_CHECK_URL d).
      * destruct (Hgood eq_refl) as [-> _]. split; discriminate.
      * destruct (Hfail eq_refl) as [-> _]. split; reflexivity.
    + intros Hn. destruct (Hfail Hn) as [-> ->]. repeat split.
  - destruct (check_ms_name_spec world address h)
      as (o & d & Hrun & [_ Hle] & Hfail & Hgood & _).
    exists o, d. split; [assumption |]. split; [assumption |]. split.
    + destruct (answered_200 MS_CHECK_URL d).
      * destruct (Hgood eq_refl) as [-> _]. split; discriminate.
      * destruct (Hfail eq_refl) as [-> _]. split; reflexivity.
    + intros Hn. destruct (Hfail Hn) as [-> ->]. repeat split.
Qed.

(** Example 5 of the specification, at the probe: three transport errors
    in a row give the failed outcome, returned and not raised. *)
Lemma exhausted_probe_witness :
  answered_200 EA_CHECK_URL
    (effects (check_ea_email Samples.offline Samples.address) []) = false /\
  fst (check_ea_email Samples.offline Samples.address []) = Normal failed_outcome.
Proof.
  split; [reflexivity |].
  destruct (exhausted_probe_returns_failed_outcome Samples.offline Samples.address [])
    as [(o & d & Hrun & _ & _ & Hfail) _].
  rewrite Hrun. cbn [fst]. f_equal.
  assert (answered_200 EA_CHECK_URL d = false) as Hn.
  { injection Hrun as _ <-. reflexivity. }
  destruct (Hfail Hn) as (_ & Hok & Hst & Hresp & Hhs).
  destruct o as [ok0 resp0 [st0 hs0]]. cbn in *. now subst.
Defined.

(* ===================================================================== *)
(** * The interpreters (4.2, 4.3)                                         *)
(* ===================================================================== *)

Ltac split_ifs_in H :=
  repeat match type of H with
         | context [if ?c then _ else _] => destruct c eqn:?
         end.

(** C3: the two answers of the EA endpoint. *)
Theorem interpret_ea_response_api_examples (unicode_lower : pystr -> pystr) :
  interpret_ea_response unicode_lower
    (JDict [(u "status", JBool false);
            (u "message", JStr (u "register_email_existed"))]) =
  Normal {| exists_ := true;
            ea_reason := "EA message: register_email_existed" |} /\
  interpret_ea_response unicode_lower
    (JDict [(u "status", JBool true);
            (u "message", JStr (u "register_email_not_existed"))]) =
  Normal {| exists_ := false;
            ea_reason := "EA message: register_email_not_existed" |}.
Proof. split; vm_compute; reflexivity. Qed.

(** C4: in a dict, a boolean [isAvailable] is the verdict; without the key,
    a non-empty list of [suggestions] gives [available = False]. *)
Theorem interpret_ms_response_fields
    (unicode_lower : pystr -> pystr) (d : list (pystr * json)) :
  (forall b : bool,
     dict_get (u "isAvailable") d = Some (JBool b) ->
     interpret_ms_response unicode_lower (JDict d) =
     {| available := Some b; ms_reason := "field:isAvailable" |}) /\
  (forall (x : json) (xs : list json),
     dict_get (u "isAvailable") d = None ->
     dict_get (u "suggestions") d = Some (JList (x :: xs)) ->
     interpret_ms_response unicode_lower (JDict d) =
     {| available := Some false; ms_reason := "has_suggestions" |}) /\
  available (interpret_ms_response unicode_lower
               (JDict [(u "isAvailable", JBool true)])) = Some true /\
  available (interpret_ms_response unicode_lower
               (JDict [(u "suggestions", JList [JStr (u "a@b.com")])])) = Some false.
Proof.
  split; [| split; [| split; reflexivity]].
  - intros b Hb. unfold interpret_ms_response. now rewrite Hb.
  - intros x xs Hnone Hs. unfold interpret_ms_response, get_default.
    now rewrite Hnone, Hs.
Qed.

Lemma interpret_ms_response_fields_witness :
  dict_get (u "isAvailable")
    [(u "suggestions", JList [JStr (u "a@b.com")]); (u "isAvailable", JBool false)]
  = Some (JBool false) /\
  interpret_ms_response Samples.plain_lower
    (JDict [(u "suggestions", JList [JStr (u "a@b.com")]);
            (u "isAvailable", JBool false)]) =
  {| available := Some false; ms_reason := "field:isAvailable" |}.
Proof.
  split; [reflexivity |].
  exact (proj1 (interpret_ms_response_fields Samples.plain_lower
                  [(u "suggestions", JList [JStr (u "a@b.com")]);
                   (u "isAvailable", JBool false)]) false eq_refl).
Defined.

(** Interpreter A without its call of [.lower()] on a non-string: on a body
    that is not a dict, or a dict whose [message] is missing or a string,
    it returns a verdict, and the reason of the verdict is not empty. *)
Lemma interpret_ea_response_returns (unicode_lower : pystr -> pystr) (body : json) :
  (forall d, body = JDict d ->
     dict_get (u "message") d = None \/
     exists s, dict_get (u "message") d = Some (JStr s)) ->
  exists v, interpret_ea_response unicode_lower body = Normal v /\
            ea_reason v <> ""%string.
Proof.
  intros Hmsg.
  destruct body as [| b | z | lit | s | l | d];
    try (eexists; split; [reflexivity | discriminate]).
  unfold interpret_ea_response, get_default.
  destruct (Hmsg d eq_refl) as [-> | (s & ->)]; cbn [method_lower];
    repeat match goal with
           | |- context [if ?c then _ else _] => destruct c
           end;
    eexists; (split; [reflexivity | discriminate]).
Qed.

(** The empty response of a failed probe is never read as "linked". *)
Lemma interpret_ea_response_failed (unicode_lower : pystr -> pystr) :
  interpret_ea_response unicode_lower (response failed_outcome) =
  Normal {| exists_ := false; ea_reason := "no_clear_indicator" |}.
Proof. vm_compute. reflexivity. Qed.

(** C10, the failing input: a dict whose [message] is [null] makes
    interpreter A raise [AttributeError] instead of returning a verdict,
    and [process_email] raises with it when the EA endpoint answers 200
    with that body: no record is built. *)
Theorem interpret_ea_response_null_message_raises (unicode_lower : pystr -> pystr) :
  interpret_ea_response unicode_lower Samples.null_message = Raise AttributeError /\
  fst (check_ea_email (Samples.always Samples.null_message) Samples.address []) =
    Normal {| ok := true; response := Samples.null_message;
              meta := {| status_code := 200; headers := [] |} |} /\
  fst (process_email unicode_lower (Samples.always Samples.null_message)
         Samples.address []) = Raise AttributeError.
Proof. repeat split; reflexivity. Qed.

(** C8, as stated, fails: the body [{"msg": "existed"}] is judged by the
    text heuristic, with decision true; the verdict object fed back to the
    interpreter is judged false. *)
Lemma heuristic_positive_verdict_not_preserved :
  interpret_ea_response Samples.plain_lower
    (JDict [(u "msg", JStr (u "existed"))]) =
  Normal {| exists_ := true; ea_reason := "text_heuristic_positive" |} /\
  interpret_ea_response Samples.plain_lower
    (verdict_json {| exists_ := true; ea_reason := "text_heuristic_positive" |}) =
  Normal {| exists_ := false; ea_reason := "no_clear_indicator" |}.
Proof. split; vm_compute; reflexivity. Qed.

(** C8 (as amended): when interpreter A ends in its text heuristics, running
    it again on the verdict object gives decision false with reason
    [no_clear_indicator], so the decision is kept exactly when it was
    false; run on the serialized text of the verdict, a string, the
    interpreter answers false as well ([not_a_dict]). *)
Theorem heuristic_verdict_rerun_is_negative
    (unicode_lower : pystr -> pystr) (body : json) (v : ea_verdict) :
  interpret_ea_response unicode_lower body = Normal v ->
  heuristic_fallback v = true ->
  interpret_ea_response unicode_lower (verdict_json v) =
    Normal {| exists_ := false; ea_reason := "no_clear_indicator" |} /\
  interpret_ea_response unicode_lower (JStr (json_dumps (verdict_json v))) =
    Normal {| exists_ := false; ea_reason := "not_a_dict" |} /\
  (forall v', interpret_ea_response unicode_lower (verdict_json v) = Normal v' ->
     (exists_ v' = exists_ v <-> exists_ v = false)).
Proof.
  intros Hrun Hh.
  assert (interpret_ea_response unicode_lower (verdict_json v) =
          Normal {| exists_ := false; ea_reason := "no_clear_indicator" |}) as Hre.
  { destruct body as [| b | z | lit | s | l | d];
      try (injection Hrun as <-; discriminate Hh).
    unfold interpret_ea_response in Hrun.
    destruct (method_lower unicode_lower _) as [msg | e]; [| discriminate].
    split_ifs_in Hrun; injection Hrun as <-;
      first [discriminate Hh | vm_compute; reflexivity]. }
  split; [exact Hre |]. split; [reflexivity |].
  intros v' Hv'. rewrite Hre in Hv'. injection Hv' as <-. cbn.
  split; intros H; now rewrite H.
Qed.

Lemma heuristic_verdict_rerun_witness :
  interpret_ea_response Samples.plain_lower
    (JDict [(u "error", JStr (u "account does not exist"))]) =
    Normal {| exists_ := false; ea_reason := "text_heuristic_negative" |} /\
  heuristic_fallback {| exists_ := false; ea_reason := "text_heuristic_negative" |} = true /\
  interpret_ea_response Samples.plain_lower
    (verdict_json {| exists_ := false; ea_reason := "text_heuristic_negative" |}) =
    Normal {| exists_ := false; ea_reason := "no_clear_indicator" |}.
Proof.
  split; [vm_compute; reflexivity |]. split; [reflexivity |].
  exact (proj1 (heuristic_verdict_rerun_is_negative Samples.plain_lower
                  (JDict [(u "error", JStr (u "account does not exist"))])
                  {| exists_ := false; ea_reason := "text_heuristic_negative" |}
                  eq_refl eq_refl)).
Defined.

(* ===================================================================== *)
(** * The pipeline (4.4)                                                  *)
(* ===================================================================== *)

(** One run of [process_email], laid out: probe A always returns; then the
    run raises with interpreter A, or stops at "not linked" without
    touching the Microsoft endpoint, or runs probe B once and files the
    address by its verdict. *)
Lemma process_email_run (unicode_lower : pystr -> pystr) (world : World)
    (address : pystr) (h : history) :
  exists (ea : probe_outcome) (dA : list event),
    check_ea_email world (str_strip address) h = (Normal ea, h ++ dA) /\
    calls MS_CHECK_URL dA = 0%nat /\
    (ok ea = false ->
       interpret_ea_response unicode_lower (response ea) =
       Normal {| exists_ := false; ea_reason := "no_clear_indicator" |}) /\
    match interpret_ea_response unicode_lower (response ea) with
    | Raise e =>
        process_email unicode_lower world address h = (Raise e, h ++ dA)
    | Normal va =>
        if negb (ok ea) || negb (exists_ va) then
          process_email unicode_lower world address h =
          (Normal (record_not_linked (str_strip address) (localtime world h) ea va),
           h ++ dA)
        else
          exists (ms : probe_outcome) (dB : list event),
            check_ms_name world (str_strip address) (h ++ dA) =
              (Normal ms, (h ++ dA) ++ dB) /\
            (1 <= calls MS_CHECK_URL dB <= 3)%nat /\
            process_email unicode_lower world address h =
            (Normal (record_linked (str_strip address) (localtime world h) ea va
                       ms (interpret_ms_response unicode_lower (response ms))),
             (h ++ dA) ++ dB)
    end.
Proof.
  destruct (check_ea_email_spec world (str_strip address) h)
    as (ea & dA & HrunA & _ & Hfail & Hgood & HnoB).
  exists ea, dA. split; [exact HrunA |]. split; [exact HnoB |]. split.
  - intros Hok. destruct (answered_200 EA_CHECK_URL dA).
    + destruct (Hgood eq_refl) as [Hok' _]. congruence.
    + destruct (Hfail eq_refl) as [-> _]. apply interpret_ea_response_failed.
  - unfold process_email, bind, now_ts, lift, ret. rewrite HrunA.
    destruct (interpret_ea_response unicode_lower (response ea)) as [va | e];
      [| reflexivity].
    destruct (negb (ok ea) || negb (exists_ va)); [reflexivity |].
    destruct (check_ms_name_spec world (str_strip address) (h ++ dA))
      as (ms & dB & HrunB & Hcalls & _).
    exists ms, dB. split; [exact HrunB |]. split; [exact Hcalls |].
    rewrite HrunB. unfold record_linked, is_available.
    destruct (available (interpret_ms_response unicode_lower (response ms)))
      as [[|] |]; reflexivity.
Qed.

Lemma folder_of_injective b b' : folder_of b = folder_of b' -> b = b'.
Proof. destruct b, b'; (reflexivity || discriminate). Qed.

Lemma bucket_of_folder_of b : bucket_of (Some (folder_of b)) = Some b.
Proof. now destruct b. Qed.

(** C1: when [process_email] returns a record, the record holds the
    outcome of probe A and the verdict interpreter A gives on it, and is
    filed under NOT_LINKED exactly when probe A failed or verdict A is not
    true.  Otherwise it holds the outcome of the run of probe B that
    follows probe A and the verdict interpreter B gives on that outcome,
    and is filed under LINKED_AND_AVAILABLE exactly when that verdict is
    true, under LINKED_BUT_UNAVAILABLE exactly when it is anything else.
    [process_email] returns a record unless interpreter A raises. *)
Theorem process_email_bucket (unicode_lower : pystr -> pystr) (world : World)
    (address : pystr) (h : history) :
  match process_email unicode_lower world address h with
  | (Normal r, _) =>
      exists (ea : probe_outcome) (va : ea_verdict),
        fst (check_ea_email world (str_strip address) h) = Normal ea /\
        interpret_ea_response unicode_lower (response ea) = Normal va /\
        ea_check r = Some ea /\ ea_interpret r = Some va /\
        (bucket_of (final_folder r) = Some NOT_LINKED <->
           ok ea = false \/ exists_ va <> true) /\
        (bucket_of (final_folder r) <> Some NOT_LINKED ->
           exists (ms : probe_outcome) (vb : ms_verdict),
             fst (check_ms_name world (str_strip address)
                    (snd (check_ea_email world (str_strip address) h))) =
               Normal ms /\
             vb = interpret_ms_response unicode_lower (response ms) /\
             ms_check r = Some ms /\ ms_interpret r = Some vb /\
             (bucket_of (final_folder r) = Some LINKED_AND_AVAILABLE <->
                available vb = Some true) /\
             (bucket_of (final_folder r) = Some LINKED_BUT_UNAVAILABLE <->
                available vb <> Some true))
  | (Raise e, _) =>
      exists ea : probe_outcome,
        fst (check_ea_email world (str_strip address) h) = Normal ea /\
        interpret_ea_response unicode_lower (response ea) = Raise e
  end.
Proof.
  destruct (process_email_run unicode_lower world address h)
    as (ea & dA & HrunA & _ & _ & Hrun).
  destruct (interpret_ea_response unicode_lower (response ea)) as [va | e] eqn:Hva.
  - destruct (negb (ok ea) || negb (exists_ va)) eqn:Hgate.
    + rewrite Hrun. exists ea, va. rewrite HrunA. cbn.
      split; [reflexivity |]. split; [exact Hva |].
      split; [reflexivity |]. split; [reflexivity |]. split.
      * split; [intros _ | reflexivity].
        destruct (ok ea); [| now left]. destruct (exists_ va); [discriminate |].
        right. discriminate.
      * intros H. now contradiction H.
    + destruct Hrun as (ms & dB & HrunB & _ & ->).
      exists ea, va. rewrite HrunA.
      split; [reflexivity |]. split; [exact Hva |].
      split; [reflexivity |]. split; [reflexivity |].
      apply orb_false_elim in Hgate. destruct Hgate as [Hok Hex].
      apply negb_false_iff in Hok, Hex.
      set (vb := interpret_ms_response unicode_lower (response ms)).
      assert (bucket_of (final_folder (record_linked (str_strip address)
                (localtime world h) ea va ms vb)) =
              Some (if is_available vb then LINKED_AND_AVAILABLE
                    else LINKED_BUT_UNAVAILABLE)) as Hb.
      { cbn. now destruct (is_available vb). }
      rewrite Hb. split.
      * split.
        -- destruct (is_available vb); discriminate.
        -- intros [H | H]; congruence.
      * intros _. exists ms, vb. cbn [snd]. rewrite HrunB.
        split; [reflexivity |]. split; [reflexivity |].
        split; [reflexivity |]. split; [reflexivity |].
        unfold is_available. destruct (available vb) as [[|] |]; split; split;
          congruence.
  - rewrite Hrun. exists ea. rewrite HrunA. split; [reflexivity | exact Hva].
Qed.

(** Example 5 of the specification, at the pipeline: with the network
    down the record goes to NOT_LINKED with the failed outcome of probe
    A.  And an address that both services know: the record holds the 200
    outcome of probe B and goes to LINKED_AND_AVAILABLE. *)
Lemma process_email_bucket_witness :
  (exists r : verification_record,
     fst (process_email Samples.plain_lower Samples.offline Samples.address []) =
       Normal r /\
     ea_check r = Some failed_outcome /\
     bucket_of (final_folder r) = Some NOT_LINKED) /\
  (exists r : verification_record,
     fst (process_email Samples.plain_lower (Samples.always Samples.linked_body)
            Samples.address []) = Normal r /\
     ms_check r =
       Some {| ok := true; response := Samples.linked_body;
               meta := {| status_code := 200; headers := [] |} |} /\
     bucket_of (final_folder r) = Some LINKED_AND_AVAILABLE).
Proof.
  split.
  - pose proof (process_email_bucket Samples.plain_lower Samples.offline
                  Samples.address []) as H.
    destruct (process_email Samples.plain_lower Samples.offline Samples.address [])
      as [[r | e] h'] eqn:Hrun.
    + exists r. split; [reflexivity |].
      destruct H as (ea & va & Hea & Hva & Hcheck & _ & Hbucket & _).
      vm_compute in Hea. injection Hea as <-.
      split; [exact Hcheck |]. apply Hbucket. now left.
    + vm_compute in Hrun. discriminate Hrun.
  - pose proof (process_email_bucket Samples.plain_lower
                  (Samples.always Samples.linked_body) Samples.address []) as H.
    destruct (process_email Samples.plain_lower (Samples.always Samples.linked_body)
                Samples.address []) as [[r | e] h'] eqn:Hrun.
    + exists r. split; [reflexivity |].
      destruct H as (ea & va & Hea & Hva & _ & _ & Hnot & Hlinked).
      vm_compute in Hea. injection Hea as <-.
      vm_compute in Hva. injection Hva as <-.
      assert (bucket_of (final_folder r) <> Some NOT_LINKED) as Hb.
      { intros Hb. apply Hnot in Hb. destruct Hb as [Hb | Hb].
        - discriminate Hb.
        - now apply Hb. }
      destruct (Hlinked Hb) as (ms & vb & Hms & -> & Hcheck & _ & Havail & _).
      vm_compute in Hms. injection Hms as <-.
      split; [exact Hcheck |]. apply Havail. vm_compute. reflexivity.
    + vm_compute in Hrun. discriminate Hrun.
Defined.

(** C2: probe A always returns, without calling the Microsoft endpoint.
    With verdict A true, [process_email] then runs probe B exactly once:
    its remaining effects are those of one run of [check_ms_name], between
    1 and 3 calls of the endpoint.  With verdict A not true, which is the
    case whenever probe A failed, it performs nothing more, the Microsoft
    endpoint is not called, and the bucket is NOT_LINKED. *)
Theorem probe_b_runs_once_iff_linked (unicode_lower : pystr -> pystr)
    (world : World) (address : pystr) (h : history) :
  exists (ea : probe_outcome) (dA : list event),
    check_ea_email world (str_strip address) h = (Normal ea, h ++ dA) /\
    calls MS_CHECK_URL dA = 0%nat /\
    (ok ea = false ->
       exists va, interpret_ea_response unicode_lower (response ea) = Normal va /\
                  exists_ va = false) /\
    forall va : ea_verdict,
      interpret_ea_response unicode_lower (response ea) = Normal va ->
      (exists_ va = true ->
         exists (ms : probe_outcome) (dB : list event) (r : verification_record),
           check_ms_name world (str_strip address) (h ++ dA) =
             (Normal ms, (h ++ dA) ++ dB) /\
           process_email unicode_lower world address h =
             (Normal r, (h ++ dA) ++ dB) /\
           ms_check r = Some ms /\
           effects (process_email unicode_lower world address) h = dA ++ dB /\
           (1 <= calls MS_CHECK_URL
                   (effects (process_email unicode_lower world address) h) <= 3)%nat) /\
      (exists_ va <> true ->
         exists r : verification_record,
           process_email unicode_lower world address h = (Normal r, h ++ dA) /\
           effects (process_email unicode_lower world address) h = dA /\
           calls MS_CHECK_URL
             (effects (process_email unicode_lower world address) h) = 0%nat /\
           ms_check r = None /\
           bucket_of (final_folder r) = Some NOT_LINKED).
Proof.
  destruct (process_email_run unicode_lower world address h)
    as (ea & dA & HrunA & HnoB & Hfailed & Hrun).
  exists ea, dA. split; [exact HrunA |]. split; [exact HnoB |]. split.
  - intros Hok. eexists. split; [exact (Hfailed Hok) | reflexivity].
  - intros va Hva. rewrite Hva in Hrun. split.
    + intros Hex.
      assert (ok ea = true) as Hok.
      { destruct (ok ea) eqn:E; [reflexivity |].
        rewrite (Hfailed eq_refl) in Hva. injection Hva as <-. discriminate Hex. }
      rewrite Hok, Hex in Hrun. cbn in Hrun.
      destruct Hrun as (ms & dB & HrunB & Hcalls & Hrun).
      exists ms, dB. eexists. split; [exact HrunB |]. split; [exact Hrun |].
      split; [reflexivity |].
      rewrite <- app_assoc in Hrun.
      rewrite (effects_run (process_email unicode_lower world address) h _ _ Hrun).
      split; [reflexivity |]. rewrite calls_app, HnoB. exact Hcalls.
    + intros Hex.
      assert (exists_ va = false) as Hex' by now destruct (exists_ va).
      rewrite Hex', orb_true_r in Hrun.
      eexists. split; [exact Hrun |].
      rewrite (effects_run (process_email unicode_lower world address) h _ _ Hrun).
      split; [reflexivity |]. split; [exact HnoB |]. split; reflexivity.
Qed.

Lemma probe_b_runs_once_witness :
  interpret_ea_response Samples.plain_lower Samples.linked_body =
    Normal {| exists_ := true;
              ea_reason := "EA message: register_email_existed" |} /\
  (1 <= calls MS_CHECK_URL
          (effects (process_email Samples.plain_lower
                      (Samples.always Samples.linked_body) Samples.address) [])
     <= 3)%nat.
Proof.
  split; [vm_compute; reflexivity |].
  destruct (probe_b_runs_once_iff_linked Samples.plain_lower
              (Samples.always Samples.linked_body) Samples.address [])
    as (ea & dA & HrunA & _ & _ & Hva).
  vm_compute in HrunA. injection HrunA as <- <-.
  destruct (Hva _ eq_refl) as [Hyes _].
  destruct (Hyes eq_refl) as (ms & dB & r & _ & _ & _ & _ & Hcalls).
  exact Hcalls.
Defined.

(** C9: a record that [process_email] returns is filed under the folder of
    exactly one of the three buckets, and its [ms_check] and [ms_interpret]
    are both set when that bucket is not NOT_LINKED and both [None] when it
    is. *)
Theorem record_has_one_bucket (unicode_lower : pystr -> pystr) (world : World)
    (address : pystr) (h h' : history) (r : verification_record) :
  process_email unicode_lower world address h = (Normal r, h') ->
  exists b : bucket,
    final_folder r = Some (folder_of b) /\
    (forall b' : bucket, final_folder r = Some (folder_of b') -> b' = b) /\
    ((ms_check r <> None /\ ms_interpret r <> None) <-> b <> NOT_LINKED) /\
    ((ms_check r = None /\ ms_interpret r = None) <-> b = NOT_LINKED).
Proof.
  intros Hret.
  destruct (process_email_run unicode_lower world address h)
    as (ea & dA & _ & _ & _ & Hrun).
  assert (forall b, final_folder r = Some (folder_of b) ->
            forall b', final_folder r = Some (folder_of b') -> b' = b) as Huniq.
  { intros b Hb b' Hb'. rewrite Hb in Hb'. injection Hb' as Hb'.
    symmetry. now apply folder_of_injective. }
  destruct (interpret_ea_response unicode_lower (response ea)) as [va | e].
  - destruct (negb (ok ea) || negb (exists_ va)).
    + rewrite Hrun in Hret. injection Hret as <- _.
      exists NOT_LINKED. split; [reflexivity |].
      split; [now apply Huniq |]. cbn. split; split; tauto.
    + destruct Hrun as (ms & dB & _ & _ & Hrun).
      rewrite Hrun in Hret. injection Hret as <- _.
      set (vb := interpret_ms_response unicode_lower (response ms)).
      exists (if is_available vb then LINKED_AND_AVAILABLE
              else LINKED_BUT_UNAVAILABLE).
      assert (final_folder (record_linked (str_strip address)
                (localtime world h) ea va ms vb) =
              Some (folder_of (if is_available vb then LINKED_AND_AVAILABLE
                               else LINKED_BUT_UNAVAILABLE))) as Hf.
      { cbn. now destruct (is_available vb). }
      split; [exact Hf |]. split; [now apply Huniq |]. cbn.
      split; split.
      * intros _. destruct (is_available vb); discriminate.
      * intros _. split; discriminate.
      * intros [H _]. discriminate H.
      * destruct (is_available vb); discriminate.
  - rewrite Hrun in Hret. discriminate Hret.
Qed.

Lemma record_has_one_bucket_witness :
  process_email Samples.plain_lower (Samples.always Samples.linked_body)
    Samples.address [] =
  (Normal (record_linked Samples.address (Samples.clock [])
             {| ok := true; response := Samples.linked_body;
                meta := {| status_code := 200; headers := [] |} |}
             {| exists_ := true;
                ea_reason := "EA message: register_email_existed" |}
             {| ok := true; response := Samples.linked_body;
                meta := {| status_code := 200; headers := [] |} |}
             {| available := Some true; ms_reason := "field:isAvailable" |}),
   [EvHttp (ea_query Samples.address)
      (Returned (Samples.reply 200 [] (Some Samples.linked_body)));
    EvHttp (ms_query Samples.address)
      (Returned (Samples.reply 200 [] (Some Samples.linked_body)))]) /\
  exists b : bucket,
    b = LINKED_AND_AVAILABLE /\
    final_folder (record_linked Samples.address (Samples.clock [])
             {| ok := true; response := Samples.linked_body;
                meta := {| status_code := 200; headers := [] |} |}
             {| exists_ := true;
                ea_reason := "EA message: register_email_existed" |}
             {| ok := true; response := Samples.linked_body;
                meta := {| status_code := 200; headers := [] |} |}
             {| available := Some true; ms_reason := "field:isAvailable" |})
    = Some (folder_of b).
Proof.
  assert (process_email Samples.plain_lower (Samples.always Samples.linked_body)
            Samples.address [] = _) as Hrun by (vm_compute; reflexivity).
  split; [exact Hrun |].
  destruct (record_has_one_bucket _ _ _ _ _ _ Hrun) as (b & Hb & Huniq & _).
  exists b. split; [| exact Hb].
  symmetry. apply Huniq. reflexivity.
Defined.

(* ===================================================================== *)
(** * File names of the records                                           *)
(* ===================================================================== *)

Ltac props_of_bools :=
  repeat rewrite ?orb_true_iff, ?andb_true_iff, ?N.leb_le, ?N.eqb_eq, ?N.ltb_lt in *.

Lemma safe_char_facts (c : N) :
  is_safe_char c = true ->
  is_space c = false /\ is_ascii c = true /\ ascii_lower c = c /\
  (c =? 64)%N = false /\ (c =? 46)%N = false /\ (c =? 47)%N = false.
Proof.
  unfold is_safe_char, is_space, is_ascii, ascii_lower. intros H.
  assert ((97 <= c <= 122) \/ (48 <= c <= 57) \/ c = 95)%N as Hc.
  { props_of_bools. lia. }
  clear H. split; [| split; [| split; [| split; [| split]]]].
  - apply not_true_is_false. intros H. props_of_bools. lia.
  - props_of_bools. lia.
  - destruct ((65 <=? c)%N && (c <=? 90)%N) eqn:E; [| reflexivity].
    props_of_bools. lia.
  - apply N.eqb_neq. lia.
  - apply N.eqb_neq. lia.
  - apply N.eqb_neq. lia.
Qed.

Lemma sub_unsafe_safe (s : pystr) : forallb is_safe_char (sub_unsafe s) = true.
Proof.
  unfold sub_unsafe. induction s as [| c s IH]; [reflexivity |].
  cbn [map forallb]. rewrite IH, andb_true_r.
  destruct (is_safe_char c) eqn:E; [exact E | reflexivity].
Qed.

Lemma sub_unsafe_fix (s : pystr) :
  forallb is_safe_char s = true -> sub_unsafe s = s.
Proof.
  unfold sub_unsafe. induction s as [| c s IH]; [reflexivity |].
  cbn [map forallb]. intros H.
  apply andb_prop in H. destruct H as [Hc Hs]. now rewrite Hc, IH.
Qed.

Lemma replace_char_absent (old : N) (new s : pystr) :
  forallb (fun c => negb (c =? old)%N) s = true -> replace_char old new s = s.
Proof.
  unfold replace_char. induction s as [| c s IH]; [reflexivity |].
  cbn [flat_map forallb]. intros H.
  apply andb_prop in H. destruct H as [Hc Hs].
  apply negb_true_iff in Hc. now rewrite Hc, IH.
Qed.

Lemma forallb_weaken {A : Type} (p q : A -> bool) (l : list A) :
  (forall x, p x = true -> q x = true) ->
  forallb p l = true -> forallb q l = true.
Proof.
  intros Hpq. induction l as [| x l IH]; [reflexivity |]. cbn. intros H.
  apply andb_prop in H. destruct H as [Hx Hl]. now rewrite (Hpq x Hx), IH.
Qed.

Lemma lstrip_head_kept (s : pystr) :
  match s with [] => True | c :: _ => is_space c = false end -> lstrip s = s.
Proof. destruct s as [| c s]; [reflexivity |]. cbn. now intros ->. Qed.

Lemma str_strip_safe (s : pystr) :
  forallb is_safe_char s = true -> str_strip s = s.
Proof.
  intros H. unfold str_strip.
  assert (forall t, forallb is_safe_char t = true -> lstrip t = t) as Hl.
  { intros t Ht. apply lstrip_head_kept. destruct t as [| c t]; [exact I |].
    cbn in Ht. apply andb_prop in Ht. now apply safe_char_facts. }
  rewrite (Hl s H), Hl, rev_involutive; [reflexivity |].
  rewrite forallb_forall in *. intros c Hc. apply H. now apply in_rev.
Qed.

Lemma str_lower_safe (unicode_lower : pystr -> pystr) (s : pystr) :
  forallb is_safe_char s = true -> str_lower unicode_lower s = s.
Proof.
  intros H. unfold str_lower.
  rewrite (forallb_weaken is_safe_char is_ascii s); [| | exact H].
  - induction s as [| c s IH]; [reflexivity |]. cbn in H |- *.
    apply andb_prop in H. destruct H as [Hc Hs].
    destruct (safe_char_facts c Hc) as (_ & _ & -> & _). now rewrite IH.
  - intros c Hc. now apply safe_char_facts.
Qed.

(** X1: the file name of an address is made of [a-z], [0-9] and [_] only. *)
Theorem safe_filename_alphabet (unicode_lower : pystr -> pystr) (email : pystr) :
  forallb is_safe_char (safe_filename unicode_lower email) = true.
Proof.
  unfold safe_filename, sub_unsafe.
  induction (replace_char 46 (u "_dot_")
               (replace_char 64 (u "_at_")
                  (str_lower unicode_lower (str_strip email)))) as [| c s IH];
    [reflexivity |].
  cbn [map forallb]. rewrite IH, andb_true_r.
  destruct (is_safe_char c) eqn:E; [exact E | reflexivity].
Qed.

(** X2: [safe_filename] is idempotent, so an address and its own file name
    are filed under the same name: the sanitizing is not injective. *)
Theorem safe_filename_idempotent (unicode_lower : pystr -> pystr) (email : pystr) :
  safe_filename unicode_lower (safe_filename unicode_lower email) =
  safe_filename unicode_lower email.
Proof.
  assert (forallb is_safe_char (safe_filename unicode_lower email) = true) as H
    by (unfold safe_filename; apply sub_unsafe_safe).
  set (s := safe_filename unicode_lower email) in *.
  unfold safe_filename at 1.
  rewrite (str_strip_safe s H), (str_lower_safe unicode_lower s H).
  rewrite (replace_char_absent 64), (replace_char_absent 46).
  - now apply sub_unsafe_fix.
  - apply (forallb_weaken is_safe_char); [| exact H].
    intros c Hc. apply negb_true_iff. now apply safe_char_facts.
  - apply (forallb_weaken is_safe_char); [| exact H].
    intros c Hc. apply negb_true_iff. now apply safe_char_facts.
Qed.

Lemma uint_text_digits (d : Decimal.uint) :
  forallb (fun c => negb (c =? 47)%N) (u (NilEmpty.string_of_uint d)) = true.
Proof. induction d; cbn; auto. Qed.

Lemma int_repr_no_slash (z : Z) :
  forallb (fun c => negb (c =? 47)%N) (int_repr z) = true.
Proof.
  unfold int_repr, NilZero.string_of_int, NilZero.string_of_uint.
  destruct (Z.to_int z) as [d | d]; destruct d; cbn; auto using uint_text_digits.
Qed.

Lemma result_fname_no_slash (unicode_lower : pystr -> pystr) (email : pystr)
    (epoch : Z) :
  forallb (fun c => negb (c =? 47)%N) (result_fname unicode_lower email epoch) = true.
Proof.
  unfold result_fname. rewrite !forallb_app, int_repr_no_slash.
  rewrite (forallb_weaken is_safe_char (fun c => negb (c =? 47)%N)
             (safe_filename unicode_lower email));
    [reflexivity | | unfold safe_filename; apply sub_unsafe_safe].
  intros c Hc. apply negb_true_iff. now apply safe_char_facts.
Qed.

(** X3: the record of an address is written inside the folder of its bucket:
    the destination is the folder, one [/], and a name without [/] that
    ends in [.json], whatever the address contains. *)
Theorem result_dest_inside_folder (unicode_lower : pystr -> pystr)
    (b : bucket) (email : pystr) (epoch : Z) :
  result_dest unicode_lower (folder_of b) email epoch =
    u (folder_of b) ++ u "/" ++ result_fname unicode_lower email epoch /\
  forallb (fun c => negb (c =? 47)%N)
    (result_fname unicode_lower email epoch) = true /\
  forallb (fun c => negb (c =? 47)%N) (u (folder_of b)) = true /\
  exists stem, result_fname unicode_lower email epoch = stem ++ u ".json".
Proof.
  pose proof (result_fname_no_slash unicode_lower email epoch) as Hns.
  split; [| split; [exact Hns | split]].
  - unfold result_dest, path_join.
    destruct (result_fname unicode_lower email epoch) as [| c name] eqn:E.
    + unfold result_fname in E. now destruct (safe_filename unicode_lower email).
    + cbn in Hns. apply andb_prop in Hns. destruct Hns as [Hc _].
      apply negb_true_iff in Hc. cbn [startswith u]. 
      replace (N_of_ascii "/") with 47%N by reflexivity.
      rewrite N.eqb_sym, Hc. now destruct b.
  - now destruct b.
  - exists (safe_filename unicode_lower email ++ u "_" ++ int_repr epoch).
    unfold result_fname. now rewrite <- !app_assoc.
Qed.

(* ===================================================================== *)
(** * The list of addresses                                               *)
(* ===================================================================== *)

Lemma lstrip_head (s : pystr) :
  match lstrip s with [] => True | c :: _ => is_space c = false end.
Proof.
  induction s as [| c s IH]; [exact I |]. cbn [lstrip].
  destruct (is_space c) eqn:E; [exact IH | exact E].
Qed.

Lemma lstrip_decomp (s : pystr) :
  exists blanks, s = blanks ++ lstrip s.
Proof.
  induction s as [| c s [blanks IH]]; [now exists [] |]. cbn [lstrip].
  destruct (is_space c).
  - exists (c :: blanks). cbn. now rewrite <- IH.
  - now exists [].
Qed.

(** [strip] has nothing left to strip from its own result. *)
Lemma str_strip_idempotent (s : pystr) : str_strip (str_strip s) = str_strip s.
Proof.
  unfold str_strip.
  set (t := lstrip s). set (r := lstrip (rev t)).
  assert (lstrip r = r) as Hr by (apply lstrip_head_kept, lstrip_head).
  assert (lstrip (rev r) = rev r) as Hrev.
  { apply lstrip_head_kept.
    destruct (lstrip_decomp (rev t)) as [blanks Hb]. fold r in Hb.
    apply (f_equal (@rev N)) in Hb. rewrite rev_involutive, rev_app_distr in Hb.
    pose proof (lstrip_head s) as Ht. fold t in Ht. rewrite Hb in Ht.
    destruct (rev r) as [| c x]; [exact I | exact Ht]. }
  now rewrite Hrev, rev_involutive, Hr.
Qed.

(** X4: the addresses read from the file are not empty and carry no blank
    at either end, so that the [strip] of [process_email] leaves them as
    they are; a path that is no file gives no address; there are no more
    addresses than lines, and they come in the order of the lines. *)
Theorem read_emails_from_file_entries (lines more : list pystr) :
  Forall (fun em => em <> [] /\ str_strip em = em)
    (read_emails_from_file (Some lines)) /\
  read_emails_from_file None = [] /\
  (List.length (read_emails_from_file (Some lines)) <= List.length lines)%nat /\
  read_emails_from_file (Some (lines ++ more)) =
    read_emails_from_file (Some lines) ++ read_emails_from_file (Some more).
Proof.
  unfold read_emails_from_file.
  split; [| split; [reflexivity | split]].
  - induction lines as [| x lines IH]; [constructor |]. cbn [filter].
    destruct (str_strip x) as [| c s] eqn:E; [exact IH |].
    cbn [map]. constructor; [| exact IH]. rewrite E. split; [discriminate |].
    rewrite <- E. apply str_strip_idempotent.
  - rewrite length_map. apply filter_length_le.
  - now rewrite filter_app, map_app.
Qed.

(* ===================================================================== *)
(** * More on the interpreters                                            *)
(* ===================================================================== *)

Lemma startswith_app (needle rest : pystr) : startswith needle (needle ++ rest) = true.
Proof.
  induction needle as [| c needle IH]; [now destruct rest |].
  cbn. now rewrite N.eqb_refl, IH.
Qed.

Lemma startswith_elim (needle hay : pystr) :
  startswith needle hay = true -> exists rest, hay = needle ++ rest.
Proof.
  revert hay. induction needle as [| c needle IH]; intros hay H.
  - now exists hay.
  - destruct hay as [| x hay]; [discriminate |]. cbn in H.
    apply andb_prop in H. destruct H as [Hc Hs]. apply N.eqb_eq in Hc. subst x.
    destruct (IH hay Hs) as [rest ->]. now exists rest.
Qed.

(** [needle in hay] says that [hay] is some text, [needle], some text. *)
Lemma contains_intro (before needle rest : pystr) :
  contains needle (before ++ needle ++ rest) = true.
Proof.
  induction before as [| c before IH].
  - cbn [app]. destruct (needle ++ rest) eqn:E; cbn [contains];
      rewrite <- E, startswith_app; reflexivity.
  - cbn [app contains]. rewrite IH. apply orb_true_r.
Qed.

Lemma contains_elim (needle hay : pystr) :
  contains needle hay = true -> exists before rest, hay = before ++ needle ++ rest.
Proof.
  induction hay as [| c hay IH]; cbn [contains]; intros H.
  - rewrite orb_false_r in H. destruct (startswith_elim _ _ H) as [rest ->].
    now exists [], rest.
  - apply orb_prop in H. destruct H as [H | H].
    + destruct (startswith_elim _ _ H) as [rest ->]. now exists [], rest.
    + destruct (IH H) as (before & rest & ->). now exists (c :: before), rest.
Qed.

Lemma contains_part (head part tail hay : pystr) :
  contains (head ++ part ++ tail) hay = true -> contains part hay = true.
Proof.
  intros H. destruct (contains_elim _ _ H) as (before & rest & ->).
  replace (before ++ (head ++ part ++ tail) ++ rest)
    with ((before ++ head) ++ part ++ (tail ++ rest))
    by now rewrite <- !app_assoc.
  apply contains_intro.
Qed.

(** X5: interpreter A raises exactly on a dict whose [message] is present
    and is not a string, and what it raises is [AttributeError]. *)
Theorem interpret_ea_response_raises_iff
    (unicode_lower : pystr -> pystr) (body : json) (e : exn) :
  interpret_ea_response unicode_lower body = Raise e <->
  e = AttributeError /\
  exists d v, body = JDict d /\ dict_get (u "message") d = Some v /\
              forall s, v <> JStr s.
Proof.
  split.
  - intros H. destruct body as [| b | z | lit | s | l | d]; try discriminate H.
    unfold interpret_ea_response, get_default in H.
    destruct (dict_get (u "message") d) as [v |] eqn:Hv.
    + destruct v as [| b | z | lit | s | l | d'];
        cbn [method_lower] in H;
        try (injection H as <-; split; [reflexivity |];
             eexists; eexists; split; [reflexivity |];
             split; [exact Hv | discriminate]).
      split_ifs_in H; cbv beta iota in H; discriminate H.
    + cbn [method_lower] in H. split_ifs_in H; cbv beta iota in H; discriminate H.
  - intros (-> & d & v & -> & Hv & Hns).
    unfold interpret_ea_response, get_default. rewrite Hv.
    destruct v as [| b | z | lit | s | l | d']; try reflexivity.
    now contradiction (Hns s).
Qed.

(** X6: a verdict of interpreter A is one of eight, and its decision is
    true exactly for the three reasons that speak of "existed". *)
Theorem interpret_ea_response_verdicts
    (unicode_lower : pystr -> pystr) (body : json) (v : ea_verdict) :
  interpret_ea_response unicode_lower body = Normal v ->
  In v ea_verdicts /\
  (exists_ v = true <->
   ea_reason v = "EA message: register_email_existed"%string \/
   ea_reason v = "status=false with existed message"%string \/
   ea_reason v = "text_heuristic_positive"%string).
Proof.
  intros H.
  assert (In v ea_verdicts) as Hin.
  { destruct body as [| b | z | lit | s | l | d];
      try (injection H as <-; now left).
    unfold interpret_ea_response in H.
    destruct (method_lower unicode_lower _) as [msg | e]; [| discriminate].
    split_ifs_in H; injection H as <-; cbn; tauto. }
  split; [exact Hin |].
  cbn in Hin.
  repeat (destruct Hin as [<- | Hin]);
    try contradiction; cbn; split; try tauto; try discriminate;
    intros [H' | [H' | H']]; discriminate H'.
Qed.

(** X7: interpreter A says "linked" only when "existed" occurs in the
    lower-cased message, or occurs in the lower-cased text of the body
    while "not" does not. *)
Theorem linked_verdict_needs_existed
    (unicode_lower : pystr -> pystr) (body : json) (v : ea_verdict) :
  interpret_ea_response unicode_lower body = Normal v ->
  exists_ v = true ->
  exists d, body = JDict d /\
    ((exists s, get_default (u "message") (JStr []) d = JStr s /\
                contains (u "existed") (str_lower unicode_lower s) = true) \/
     (contains (u "existed") (str_lower unicode_lower (json_dumps body)) = true /\
      contains (u "not") (str_lower unicode_lower (json_dumps body)) = false)).
Proof.
  intros H Hex.
  destruct body as [| b | z | lit | s | l | d];
    try (injection H as <-; discriminate Hex).
  exists d. split; [reflexivity |].
  unfold interpret_ea_response in H.
  destruct (get_default (u "message") (JStr []) d) as [| b | z | lit | s | l | d'];
    cbn [method_lower] in H; try discriminate H.
  destruct (contains (u "register_email_existed") (str_lower unicode_lower s))
    eqn:Htoken.
  - left. exists s. split; [reflexivity |].
    exact (contains_part (u "register_email_") (u "existed") [] _ Htoken).
  - destruct (pystr_eqb (str_lower unicode_lower s) (u "register_email_existed"))
      eqn:Heq.
    + exfalso. 
      assert (str_lower unicode_lower s = u "register_email_existed") as E.
      { clear - Heq. revert Heq. generalize (u "register_email_existed").
        induction (str_lower unicode_lower s) as [| c t IH]; intros [| x y] Hq;
          try discriminate; [reflexivity |].
        cbn in Hq. apply andb_prop in Hq. destruct Hq as [Hc Ht].
        apply N.eqb_eq in Hc. subst. f_equal. now apply IH. }
      rewrite E in Htoken. discriminate Htoken.
    + cbn [orb] in H.
      split_ifs_in H; injection H as <-; try discriminate Hex.
      * left. exists s. split; [reflexivity |].
        match goal with
        | Hc : (_ && contains (u "existed") _) = true |- _ =>
            apply andb_prop in Hc; exact (proj2 Hc)
        end.
      * right.
        match goal with
        | Hc : (contains (u "existed") _ && negb _) = true |- _ =>
            apply andb_prop in Hc; destruct Hc as [Hc1 Hc2];
            apply negb_true_iff in Hc2; now split
        end.
Qed.

Lemma linked_verdict_needs_existed_witness :
  interpret_ea_response Samples.plain_lower
    (JDict [(u "status", JBool false); (u "message", JStr (u "Existed"))]) =
    Normal {| exists_ := true; ea_reason := "status=false with existed message" |} /\
  exists d,
    JDict [(u "status", JBool false); (u "message", JStr (u "Existed"))] = JDict d /\
    ((exists s, get_default (u "message") (JStr []) d = JStr s /\
                contains (u "existed") (str_lower Samples.plain_lower s) = true) \/
     (contains (u "existed")
        (str_lower Samples.plain_lower
           (json_dumps (JDict [(u "status", JBool false);
                               (u "message", JStr (u "Existed"))]))) = true /\
      contains (u "not")
        (str_lower Samples.plain_lower
           (json_dumps (JDict [(u "status", JBool false);
                               (u "message", JStr (u "Existed"))]))) = false)).
Proof.
  split; [vm_compute; reflexivity |].
  exact (linked_verdict_needs_existed Samples.plain_lower
           (JDict [(u "status", JBool false); (u "message", JStr (u "Existed"))])
           {| exists_ := true; ea_reason := "status=false with existed message" |}
           eq_refl eq_refl).
Defined.

Lemma interpret_ea_response_raises_witness :
  interpret_ea_response Samples.plain_lower Samples.null_message =
  Raise AttributeError.
Proof.
  apply (proj2 (interpret_ea_response_raises_iff Samples.plain_lower
                  Samples.null_message AttributeError)).
  split; [reflexivity |].
  exists [(u "message", JNull)], JNull.
  split; [reflexivity |]. split; [reflexivity | discriminate].
Defined.

Lemma interpret_ea_response_verdicts_witness :
  interpret_ea_response Samples.plain_lower (JInt 7) =
    Normal {| exists_ := false; ea_reason := "not_a_dict" |} /\
  In {| exists_ := false; ea_reason := "not_a_dict" |} ea_verdicts.
Proof.
  split; [reflexivity |].
  exact (proj1 (interpret_ea_response_verdicts Samples.plain_lower (JInt 7)
                  {| exists_ := false; ea_reason := "not_a_dict" |} eq_refl)).
Defined.

(** X8: the verdict of interpreter B.  Its reason is one of six; it is
    "unknown" ([None]) exactly for the reasons [not_a_dict] and [unknown];
    and the reason is [field:isAvailable] exactly when the body is a dict
    with the key [isAvailable], in which case the verdict is the truth
    value of what the key holds (so [null], [0] or an empty string there
    give [False], not "unknown", whatever else the body says). *)
Theorem interpret_ms_response_verdicts
    (unicode_lower : pystr -> pystr) (body : json) :
  In (ms_reason (interpret_ms_response unicode_lower body))
     ["not_a_dict"; "field:isAvailable"; "has_suggestions"; "text_negative";
      "text_positive"; "unknown"]%string /\
  (available (interpret_ms_response unicode_lower body) = None <->
   ms_reason (interpret_ms_response unicode_lower body) = "not_a_dict"%string \/
   ms_reason (interpret_ms_response unicode_lower body) = "unknown"%string) /\
  (ms_reason (interpret_ms_response unicode_lower body) = "field:isAvailable"%string <->
   exists d x, body = JDict d /\ dict_get (u "isAvailable") d = Some x) /\
  (forall d x, body = JDict d -> dict_get (u "isAvailable") d = Some x ->
     available (interpret_ms_response unicode_lower body) = Some (truthy x)).
Proof.
  destruct body as [| b | z | lit | s | l | d];
    try (cbn; split; [tauto |]; split; [tauto |]; split;
         [split; [discriminate | intros (d & x & [=] & _)]
         | intros d x [=]]).
  unfold interpret_ms_response.
  destruct (dict_get (u "isAvailable") d) as [x |] eqn:Hx.
  - assert (forall d' x', JDict d = JDict d' ->
              dict_get (u "isAvailable") d' = Some x' -> x' = x) as Hsame.
    { intros d' x' [= <-] Hx'. rewrite Hx in Hx'. now injection Hx' as <-. }
    cbn [ms_reason available In].
    split; [tauto |].
    split; [split; [discriminate |]; intros [H | H]; discriminate H |].
    split; [split; [intros _; now exists d, x | reflexivity] |].
    intros d' x' E Hx'. now rewrite (Hsame d' x' E Hx').
  - assert (forall d' x', JDict d = JDict d' ->
              dict_get (u "isAvailable") d' = Some x' -> False) as Hno.
    { intros d' x' [= <-] Hx'. rewrite Hx in Hx'. discriminate Hx'. }
    repeat match goal with
           | |- context [if ?c then _ else _] => destruct c
           end;
      cbn; (split; [tauto |]); (split; [split; [try discriminate; tauto |];
                                        intros [H | H]; (discriminate H || reflexivity) |]);
      (split; [split; [discriminate | intros (d' & x' & E & Hx'); now destruct (Hno d' x' E Hx')]
              | intros d' x' E Hx'; now destruct (Hno d' x' E Hx')]).
Qed.

Lemma interpret_ms_response_verdicts_witness :
  dict_get (u "isAvailable") [(u "isAvailable", JNull)] = Some JNull /\
  available (interpret_ms_response Samples.plain_lower
               (JDict [(u "isAvailable", JNull)])) = Some false.
Proof.
  split; [reflexivity |].
  exact (proj2 (proj2 (proj2 (interpret_ms_response_verdicts Samples.plain_lower
                                (JDict [(u "isAvailable", JNull)]))))
           [(u "isAvailable", JNull)] JNull eq_refl eq_refl).
Defined.

(** X9: interpreter B says "available" only on evidence: the body is a
    dict, and either its [isAvailable] holds a true value, or there is no
    such key, [suggestions] is missing or holds a false value, and the
    lower-cased text
    of the body contains "available" and none of "not", "already",
    "taken". *)
Theorem available_verdict_needs_evidence
    (unicode_lower : pystr -> pystr) (body : json) :
  available (interpret_ms_response unicode_lower body) = Some true ->
  exists d, body = JDict d /\
    ((exists x, dict_get (u "isAvailable") d = Some x /\ truthy x = true) \/
     (dict_get (u "isAvailable") d = None /\
      truthy (get_default (u "suggestions") JNull d) = false /\
      contains (u "available") (str_lower unicode_lower (json_dumps body)) = true /\
      contains (u "not") (str_lower unicode_lower (json_dumps body)) = false /\
      contains (u "already") (str_lower unicode_lower (json_dumps body)) = false /\
      contains (u "taken") (str_lower unicode_lower (json_dumps body)) = false)).
Proof.
  destruct body as [| b | z | lit | s | l | d]; try discriminate.
  intros H. exists d. split; [reflexivity |].
  unfold interpret_ms_response in H.
  destruct (dict_get (u "isAvailable") d) as [x |].
  - left. exists x. split; [reflexivity |]. cbn in H. now injection H.
  - right. split; [reflexivity |].
    destruct (truthy (get_default (u "suggestions") JNull d));
      [discriminate H |]. split; [reflexivity |].
    destruct (contains (u "notavailable") _ || contains (u "already") _
              || contains (u "taken") _) eqn:Hneg; [discriminate H |].
    apply orb_false_elim in Hneg. destruct Hneg as [Hneg Htaken].
    apply orb_false_elim in Hneg. destruct Hneg as [_ Halready].
    destruct (contains (u "available") _ && negb (contains (u "not") _)) eqn:Hpos;
      [| discriminate H].
    apply andb_prop in Hpos. destruct Hpos as [Hav Hnot].
    apply negb_true_iff in Hnot. repeat split; assumption.
Qed.

Lemma available_verdict_needs_evidence_witness :
  available (interpret_ms_response Samples.plain_lower
               (JDict [(u "result", JStr (u "Available"))])) = Some true /\
  exists d, JDict [(u "result", JStr (u "Available"))] = JDict d /\
            dict_get (u "isAvailable") d = None.
Proof.
  split; [vm_compute; reflexivity |].
  destruct (available_verdict_needs_evidence Samples.plain_lower
              (JDict [(u "result", JStr (u "Available"))]) eq_refl)
    as (d & Hd & [(x & Hx & _) | (Hnone & _)]).
  - injection Hd as <-. discriminate Hx.
  - now exists d.
Defined.

(* ===================================================================== *)
(** * More on the probes                                                  *)
(* ===================================================================== *)

Lemma count_app (f : event -> bool) d1 d2 :
  count f (d1 ++ d2) = (count f d1 + count f d2)%nat.
Proof. unfold count. now rewrite filter_app, length_app. Qed.

Section ProbeAccounts.

Variable world : World.
Variables query page : request.
Variable expected : event -> Prop.

Abbreviation round := (probe_round world query page).
Abbreviation summary := (round_summary world query page).
Abbreviation loop items :=
  (for_each items (fun _ : nat => round) (ret failed_outcome)).
Abbreviation url := (rq_url query).

Hypothesis page_is_not_query : String.eqb (rq_url page) (rq_url query) = false.
Hypothesis query_is_not_page : String.eqb (rq_url query) (rq_url page) = false.
Hypothesis expected_query : forall res, expected (EvHttp query res).
Hypothesis expected_page : forall res, expected (EvHttp page res).
Hypothesis expected_sleep : forall n, 0 <= n <= max_sleep -> expected (EvSleep n).
Hypothesis expected_delay :
  forall h, expected (EvDelayRetry (backoff_length world h)).

(** A round that does not succeed waits once; a round refreshes the
    landing page exactly when its query is answered with a status other
    than 200 and 429; every effect of a round is an expected one. *)
Lemma summary_accounts h :
  count is_wait (snd (summary h)) =
    match fst (summary h) with Some _ => 0%nat | None => 1%nat end /\
  calls (rq_url page) (snd (summary h)) = count (is_refused url) (snd (summary h)) /\
  Forall expected (snd (summary h)).
Proof.
  unfold round_summary, calls, count, backoff.
  destruct (respond world h query) as [e | r]; cbn;
    rewrite ?query_is_not_page; cbn.
  - repeat split; auto.
  - destruct (r_status_code r =? 429) eqn:H429.
    + assert ((r_status_code r =? 200) = false) as H200 by lia.
      destruct (int_header r "ratelimit-reset" 60) as [n | e];
        [destruct ((0 <=? n) && (n <=? max_sleep)) eqn:Hn |];
        cbn; rewrite ?query_is_not_page, ?String.eqb_refl, ?H200, ?H429; cbn;
        repeat split; auto.
      constructor; [apply expected_query |]. constructor; [| constructor].
      apply expected_sleep. apply andb_prop in Hn. lia.
    + destruct (r_status_code r =? 200) eqn:H200; cbn;
        rewrite ?query_is_not_page, ?String.eqb_refl, ?H200, ?H429; cbn.
      * repeat split; auto.
      * destruct (respond world _ page); cbn;
          rewrite ?page_is_not_query; cbn; repeat split; auto.
Qed.

(** A round succeeds on a 200 answer only, which is its one effect, and
    hands over the body and the headers of that answer. *)
Lemma summary_success h o :
  fst (summary h) = Some o ->
  exists r, respond world h query = Returned r /\ r_status_code r = 200 /\
            snd (summary h) = [EvHttp query (Returned r)] /\
            o = {| ok := true; response := body_of r;
                   meta := {| status_code := r_status_code r;
                              headers := r_headers r |} |}.
Proof.
  unfold round_summary.
  destruct (respond world h query) as [e | r]; cbn; [discriminate |].
  destruct (r_status_code r =? 429).
  - destruct (int_header r "ratelimit-reset" 60) as [n | e];
      [destruct ((0 <=? n) && (n <=? max_sleep)) |]; discriminate.
  - destruct (r_status_code r =? 200) eqn:H200; [| discriminate].
    intros [= <-]. exists r. repeat split. lia.
Qed.

Lemma probe_loop_accounts items : forall h : history,
  exists (o : probe_outcome) (d : list event),
    loop items h = (Normal o, h ++ d) /\
    (count is_wait d + (if answered_200 url d then 1 else 0) = calls url d)%nat /\
    calls (rq_url page) d = count (is_refused url) d /\
    Forall expected d /\
    (ok o = true ->
       exists d0 r,
         d = d0 ++ [EvHttp query (Returned r)] /\
         respond world (h ++ d0) query = Returned r /\
         r_status_code r = 200 /\
         answered_200 url d0 = false /\
         o = {| ok := true; response := body_of r;
                meta := {| status_code := r_status_code r;
                           headers := r_headers r |} |}).
Proof.
  induction items as [| i rest IH]; intros h.
  - exists failed_outcome, []. rewrite app_nil_r. cbn.
    repeat split; try constructor. discriminate.
  - rewrite (loop_step world query page).
    destruct (summary_accounts h) as (Hw & Hp & He).
    pose proof (summary_value world query page page_is_not_query h) as Hv.
    pose proof (summary_calls world query page page_is_not_query h) as Hc.
    pose proof (summary_success h) as Hs.
    destruct (fst (summary h)) as [o |].
    + destruct Hv as (Hok & Hst & Ha).
      destruct (Hs o eq_refl) as (r & Hres & H200 & Hd & Ho).
      exists o, (snd (summary h)). rewrite Hw, Hc, Ha.
      split; [reflexivity |]. split; [reflexivity |]. split; [exact Hp |].
      split; [exact He |]. intros _.
      exists [], r. rewrite app_nil_r. repeat split; assumption.
    + destruct (IH (h ++ snd (summary h)))
        as (o & d & Hrun & Hwd & Hpd & Hed & Hsd).
      exists o, (snd (summary h) ++ d).
      rewrite app_assoc, !count_app, !calls_app, answered_200_app, Hw, Hc, Hv, Hp, Hpd.
      cbn [orb].
      split; [exact Hrun |]. split; [lia |]. split; [reflexivity |].
      split; [now apply Forall_app |].
      intros Hok. destruct (Hsd Hok) as (d0 & r & -> & Hres & H200 & Ha & Ho).
      exists (snd (summary h) ++ d0), r.
      rewrite <- !app_assoc, answered_200_app, Hv, Ha.
      rewrite <- app_assoc in Hres. repeat split; assumption.
Qed.

End ProbeAccounts.

Lemma run_unique {A : Type} (m : M A) (h : history) c c' d d' :
  m h = (c, h ++ d) -> m h = (c', h ++ d') -> c = c' /\ d = d'.
Proof.
  intros H H'. rewrite H in H'. injection H' as Hc Hd.
  split; [exact Hc | exact (app_inv_head _ _ _ Hd)].
Qed.

Lemma count_le_calls (url : string) (d : list event) :
  (count (is_refused url) d <= calls url d)%nat.
Proof.
  unfold count, calls. induction d as [| e d IH]; [constructor |].
  cbn [filter]. destruct (is_refused url e) eqn:E.
  - assert (is_call url e = true) as ->.
    { destruct e as [rq [x | r] | n |]; try discriminate E. cbn in E |- *.
      now destruct (String.eqb (rq_url rq) url). }
    cbn [List.length]. lia.
  - destruct (is_call url e); cbn [List.length]; lia.
Qed.

Lemma expected_effect_ea (address : pystr) :
  (forall res, expected_effect address (EvHttp (ea_query address) res)) /\
  (forall res, expected_effect address (EvHttp ea_page res)) /\
  (forall res, expected_effect address (EvHttp (ms_query address) res)) /\
  (forall res, expected_effect address (EvHttp ms_page res)) /\
  (forall n, 0 <= n <= max_sleep -> expected_effect address (EvSleep n)) /\
  (forall t, from_3_to_5 t -> expected_effect address (EvDelayRetry t)).
Proof. cbn. tauto. Qed.

(** Everything about one run of [check_ea_email]. *)
Lemma check_ea_email_accounts world address (h : history) :
  exists (o : probe_outcome) (d : list event),
    check_ea_email world address h = (Normal o, h ++ d) /\
    (count is_wait d + (if answered_200 EA_CHECK_URL d then 1 else 0) =
     calls EA_CHECK_URL d)%nat /\
    calls EA_REFERER_PAGE d = count (is_refused EA_CHECK_URL) d /\
    Forall (expected_effect address) d /\
    (ok o = true ->
       exists d0 r,
         d = d0 ++ [EvHttp (ea_query address) (Returned r)] /\
         respond world (h ++ d0) (ea_query address) = Returned r /\
         r_status_code r = 200 /\
         answered_200 EA_CHECK_URL d0 = false /\
         o = {| ok := true; response := body_of r;
                meta := {| status_code := r_status_code r;
                           headers := r_headers r |} |}).
Proof.
  rewrite check_ea_email_rounds.
  destruct (expected_effect_ea address) as (Hq & Hp & _ & _ & Hs & Hd).
  exact (probe_loop_accounts world (ea_query address) ea_page
           (expected_effect address) eq_refl eq_refl Hq Hp Hs
           (fun h0 => Hd _ (backoff_length_bounds world h0)) (seq 0 3) h).
Qed.

(** Everything about one run of [check_ms_name]. *)
Lemma check_ms_name_accounts world address (h : history) :
  exists (o : probe_outcome) (d : list event),
    check_ms_name world address h = (Normal o, h ++ d) /\
    (count is_wait d + (if answered_200 MS_CHECK_URL d then 1 else 0) =
     calls MS_CHECK_URL d)%nat /\
    calls MS_REFERER_PAGE d = count (is_refused MS_CHECK_URL) d /\
    Forall (expected_effect address) d /\
    (ok o = true ->
       exists d0 r,
         d = d0 ++ [EvHttp (ms_query address) (Returned r)] /\
         respond world (h ++ d0) (ms_query address) = Returned r /\
         r_status_code r = 200 /\
         answered_200 MS_CHECK_URL d0 = false /\
         o = {| ok := true; response := body_of r;
                meta := {| status_code := r_status_code r;
                           headers := r_headers r |} |}).
Proof.
  rewrite check_ms_name_rounds.
  destruct (expected_effect_ea address) as (_ & _ & Hq & Hp & Hs & Hd).
  exact (probe_loop_accounts world (ms_query address) ms_page
           (expected_effect address) eq_refl eq_refl Hq Hp Hs
           (fun h0 => Hd _ (backoff_length_bounds world h0)) (seq 0 3) h).
Qed.

Lemma body_of_cases (r : http_response) :
  (exists j, r_json r = Some j /\ body_of r = j) \/
  (r_json r = None /\
   body_of r = JDict [(u "raw_text", JStr (firstn 1000 (r_text r)))] /\
   (List.length (firstn 1000 (r_text r)) <= 1000)%nat).
Proof.
  unfold body_of. destruct (r_json r) as [j |].
  - left. now exists j.
  - right. repeat split. apply firstn_le_length.
Qed.

(** X10: a probe that reports success stopped at its first 200 answer.  The
    answer is the last effect of the probe, no earlier call was answered
    200, the outcome carries the status and the headers of that answer,
    and its response is the parsed body or, when the body does not parse,
    [raw_text] with at most the first 1000 characters of it.  Both
    probes. *)
Theorem successful_probe_stops_at_first_200
    (world : World) (address : pystr) (h h' : history) (o : probe_outcome) :
  ok o = true ->
  (check_ea_email world address h = (Normal o, h') ->
   exists d0 r,
     h' = h ++ d0 ++ [EvHttp (ea_query address) (Returned r)] /\
     respond world (h ++ d0) (ea_query address) = Returned r /\
     r_status_code r = 200 /\
     answered_200 EA_CHECK_URL d0 = false /\
     meta o = {| status_code := 200; headers := r_headers r |} /\
     ((exists j, r_json r = Some j /\ response o = j) \/
      (r_json r = None /\
       response o = JDict [(u "raw_text", JStr (firstn 1000 (r_text r)))] /\
       (List.length (firstn 1000 (r_text r)) <= 1000)%nat))) /\
  (check_ms_name world address h = (Normal o, h') ->
   exists d0 r,
     h' = h ++ d0 ++ [EvHttp (ms_query address) (Returned r)] /\
     respond world (h ++ d0) (ms_query address) = Returned r /\
     r_status_code r = 200 /\
     answered_200 MS_CHECK_URL d0 = false /\
     meta o = {| status_code := 200; headers := r_headers r |} /\
     ((exists j, r_json r = Some j /\ response o = j) \/
      (r_json r = None /\
       response o = JDict [(u "raw_text", JStr (firstn 1000 (r_text r)))] /\
       (List.length (firstn 1000 (r_text r)) <= 1000)%nat))).
Proof.
  intros Hok. split; intros Hrun.
  - destruct (check_ea_email_accounts world address h)
      as (o' & d & Hrun' & _ & _ & _ & Hs).
    rewrite Hrun' in Hrun. injection Hrun as -> <-.
    destruct (Hs Hok) as (d0 & r & -> & Hres & H200 & Ha & ->).
    exists d0, r. cbn [meta response]. rewrite H200.
    repeat split; try assumption. apply body_of_cases.
  - destruct (check_ms_name_accounts world address h)
      as (o' & d & Hrun' & _ & _ & _ & Hs).
    rewrite Hrun' in Hrun. injection Hrun as -> <-.
    destruct (Hs Hok) as (d0 & r & -> & Hres & H200 & Ha & ->).
    exists d0, r. cbn [meta response]. rewrite H200.
    repeat split; try assumption. apply body_of_cases.
Qed.

Lemma successful_probe_witness :
  ok {| ok := true; response := Samples.linked_body;
        meta := {| status_code := 200; headers := [] |} |} = true /\
  check_ea_email (Samples.limited_once "2") Samples.address [] =
    (Normal {| ok := true; response := Samples.linked_body;
               meta := {| status_code := 200; headers := [] |} |},
     [EvHttp (ea_query Samples.address) (Returned (Samples.limited "2"));
      EvSleep 2;
      EvHttp (ea_query Samples.address)
        (Returned (Samples.reply 200 [] (Some Samples.linked_body)))]) /\
  exists d0 r,
    [EvHttp (ea_query Samples.address) (Returned (Samples.limited "2"));
     EvSleep 2;
     EvHttp (ea_query Samples.address)
       (Returned (Samples.reply 200 [] (Some Samples.linked_body)))] =
    [] ++ d0 ++ [EvHttp (ea_query Samples.address) (Returned r)] /\
    r_status_code r = 200 /\
    answered_200 EA_CHECK_URL d0 = false.
Proof.
  split; [reflexivity |]. split; [reflexivity |].
  destruct (proj1 (successful_probe_stops_at_first_200
                     (Samples.limited_once "2") Samples.address []
                     [EvHttp (ea_query Samples.address)
                        (Returned (Samples.limited "2"));
                      EvSleep 2;
                      EvHttp (ea_query Samples.address)
                        (Returned (Samples.reply 200 [] (Some Samples.linked_body)))]
                     {| ok := true; response := Samples.linked_body;
                        meta := {| status_code := 200; headers := [] |} |}
                     eq_refl)
              eq_refl) as (d0 & r & Hh & _ & H200 & Ha & _).
  now exists d0, r.
Defined.

(** X11: the books of a probe.  Every round that does not end in a 200
    answer is followed by exactly one wait (a rate-limit sleep or the
    backoff), so the waits are the calls of the endpoint less the
    successful one; and the landing page is requested once for each call
    answered with a status other than 200 and 429, and never otherwise.
    Both probes. *)
Theorem probe_waits_and_refreshes
    (world : World) (address : pystr) (h : history) :
  (count is_wait (effects (check_ea_email world address) h)
   + (if answered_200 EA_CHECK_URL (effects (check_ea_email world address) h)
      then 1 else 0)
   = calls EA_CHECK_URL (effects (check_ea_email world address) h))%nat /\
  calls EA_REFERER_PAGE (effects (check_ea_email world address) h) =
  count (is_refused EA_CHECK_URL) (effects (check_ea_email world address) h) /\
  (count is_wait (effects (check_ms_name world address) h)
   + (if answered_200 MS_CHECK_URL (effects (check_ms_name world address) h)
      then 1 else 0)
   = calls MS_CHECK_URL (effects (check_ms_name world address) h))%nat /\
  calls MS_REFERER_PAGE (effects (check_ms_name world address) h) =
  count (is_refused MS_CHECK_URL) (effects (check_ms_name world address) h).
Proof.
  destruct (check_ea_email_accounts world address h)
    as (o & d & Hrun & Hw & Hp & _).
  destruct (check_ms_name_accounts world address h)
    as (o' & d' & Hrun' & Hw' & Hp' & _).
  rewrite (effects_run _ _ _ _ Hrun), (effects_run _ _ _ _ Hrun').
  repeat split; assumption.
Qed.

(* ===================================================================== *)
(** * More on the pipeline                                                *)
(* ===================================================================== *)

Lemma check_ea_email_elsewhere world address (h : history) (url : string) :
  String.eqb EA_CHECK_URL url = false ->
  String.eqb EA_REFERER_PAGE url = false ->
  calls url (effects (check_ea_email world address) h) = 0%nat.
Proof.
  intros Hq Hp.
  pose proof (probe_loop_spec world (ea_query address) ea_page) as Hspec.
  specialize (Hspec eq_refl).
  destruct (Hspec (seq 0 3) h) as (o & d & Hrun & _ & _ & _ & _ & Hoth).
  change (check_ea_email world address h = (Normal o, h ++ d)) in Hrun.
  rewrite (effects_run (check_ea_email world address) h _ _ Hrun).
  apply Hoth; [exact Hq | exact Hp].
Qed.

Lemma check_ms_name_elsewhere world address (h : history) (url : string) :
  String.eqb MS_CHECK_URL url = false ->
  String.eqb MS_REFERER_PAGE url = false ->
  calls url (effects (check_ms_name world address) h) = 0%nat.
Proof.
  intros Hq Hp.
  pose proof (probe_loop_spec world (ms_query address) ms_page) as Hspec.
  specialize (Hspec eq_refl).
  destruct (Hspec (seq 0 3) h) as (o & d & Hrun & _ & _ & _ & _ & Hoth).
  change (check_ms_name world address h = (Normal o, h ++ d)) in Hrun.
  rewrite (effects_run (check_ms_name world address) h _ _ Hrun).
  apply Hoth; [exact Hq | exact Hp].
Qed.

Lemma interpret_ms_response_failed (unicode_lower : pystr -> pystr) :
  interpret_ms_response unicode_lower (response failed_outcome) =
  {| available := None; ms_reason := "unknown" |}.
Proof. vm_compute. reflexivity. Qed.

(** The effects of one run of [process_email]: those of probe A, then,
    if the run gets that far, those of probe B; with the books of both. *)
Lemma process_email_effects (unicode_lower : pystr -> pystr) (world : World)
    (address : pystr) (h : history) :
  exists (c : completion verification_record) (dA dB : list event),
    process_email unicode_lower world address h = (c, h ++ dA ++ dB) /\
    effects (check_ea_email world (str_strip address)) h = dA /\
    (dB = [] \/
     dB = effects (check_ms_name world (str_strip address)) (h ++ dA) /\
     answered_200 EA_CHECK_URL dA = true /\
     exists va ea ms,
       c = Normal (record_linked (str_strip address) (localtime world h) ea va ms
                     (interpret_ms_response unicode_lower (response ms))) /\
       (answered_200 MS_CHECK_URL dB = false -> ms = failed_outcome)) /\
    (dB = [] ->
     forall r, c = Normal r ->
       exists ea va, r = record_not_linked (str_strip address) (localtime world h) ea va).
Proof.
  destruct (process_email_run unicode_lower world address h)
    as (ea & dA & HrunA & _ & _ & Hrun).
  pose proof (effects_run (check_ea_email world (str_strip address)) h _ _ HrunA) as HeA.
  destruct (check_ea_email_spec world (str_strip address) h)
    as (ea' & dA' & HrunA' & _ & HfailA & _).
  destruct (run_unique _ _ _ _ _ _ HrunA HrunA') as [[= <-] <-].
  destruct (interpret_ea_response unicode_lower (response ea)) as [va | e].
  - destruct (negb (ok ea) || negb (exists_ va)) eqn:Hgate.
    + eexists. exists dA, []. rewrite app_nil_r.
      split; [exact Hrun |]. split; [exact HeA |]. split; [now left |].
      intros _ r [= <-]. now exists ea, va.
    + destruct Hrun as (ms & dB & HrunB & _ & Hrun).
      apply orb_false_elim in Hgate. destruct Hgate as [Hok _].
      apply negb_false_iff in Hok.
      destruct (check_ms_name_spec world (str_strip address) (h ++ dA))
        as (ms' & dB' & HrunB' & _ & HfailB & _).
      destruct (run_unique _ _ _ _ _ _ HrunB HrunB') as [[= <-] <-].
      eexists. exists dA, dB. rewrite app_assoc.
      split; [exact Hrun |]. split; [exact HeA |]. split.
      * right.
        split; [symmetry; exact (effects_run (check_ms_name world (str_strip address)) (h ++ dA) _ _ HrunB) |].
        split.
        -- destruct (answered_200 EA_CHECK_URL dA); [reflexivity |].
           destruct (HfailA eq_refl) as [-> _]. discriminate Hok.
        -- exists va, ea, ms. split; [reflexivity |].
           intros Hn. now destruct (HfailB Hn).
      * intros -> r [= <-]. exfalso.
        destruct (check_ms_name_spec world (str_strip address) (h ++ dA))
          as (ms'' & dB'' & HrunB'' & [Hge _] & _).
        destruct (run_unique _ _ _ _ _ _ HrunB HrunB'') as [_ <-].
        cbn in Hge. lia.
  - eexists. exists dA, []. rewrite app_nil_r.
    split; [exact Hrun |]. split; [exact HeA |]. split; [now left |].
    intros _ r [=].
Qed.

(** X12: whatever the services answer, [process_email] contacts nothing but
    the two endpoints, with the trimmed address it was given, and the two
    landing pages, and sleeps only lengths that [time.sleep] accepts; this
    holds as well for a run that ends in an exception. *)
Theorem process_email_only_expected_effects (unicode_lower : pystr -> pystr)
    (world : World) (address : pystr) (h : history) :
  Forall (expected_effect (str_strip address))
    (effects (process_email unicode_lower world address) h).
Proof.
  destruct (process_email_effects unicode_lower world address h)
    as (c & dA & dB & Hrun & HeA & HB & _).
  rewrite (effects_run (process_email unicode_lower world address) h _ _ Hrun).
  apply Forall_app. split.
  - destruct (check_ea_email_accounts world (str_strip address) h)
      as (o & d & HrunA & _ & _ & HF & _).
    rewrite (effects_run (check_ea_email world (str_strip address)) h _ _ HrunA)
      in HeA.
    now subst.
  - destruct HB as [-> | [-> _]]; [constructor |].
    destruct (check_ms_name_accounts world (str_strip address) (h ++ dA))
      as (o & d & HrunB & _ & _ & HF & _).
    now rewrite (effects_run (check_ms_name world (str_strip address)) (h ++ dA)
                   _ _ HrunB).
Qed.

(** X13: the effort of one address is bounded, whatever the services answer:
    at least 1 and at most 3 calls of the EA endpoint, at most 3 of the
    Microsoft endpoint, at most 3 requests of each landing page, and at
    most 6 waits. *)
Theorem process_email_bounded_effort (unicode_lower : pystr -> pystr)
    (world : World) (address : pystr) (h : history) :
  (1 <= calls EA_CHECK_URL (effects (process_email unicode_lower world address) h)
     <= 3)%nat /\
  (calls MS_CHECK_URL (effects (process_email unicode_lower world address) h)
     <= 3)%nat /\
  (calls EA_REFERER_PAGE (effects (process_email unicode_lower world address) h)
     <= 3)%nat /\
  (calls MS_REFERER_PAGE (effects (process_email unicode_lower world address) h)
     <= 3)%nat /\
  (count is_wait (effects (process_email unicode_lower world address) h)
     <= 6)%nat.
Proof.
  destruct (process_email_effects unicode_lower world address h)
    as (c & dA & dB & Hrun & HeA & HB & _).
  rewrite (effects_run (process_email unicode_lower world address) h _ _ Hrun).
  rewrite !calls_app, count_app.
  destruct (check_ea_email_accounts world (str_strip address) h)
    as (o & d & HrunA & HwA & HpA & HFA & _).
  pose proof (check_ea_email_elsewhere world (str_strip address) h MS_CHECK_URL
                eq_refl eq_refl) as HA1.
  pose proof (check_ea_email_elsewhere world (str_strip address) h MS_REFERER_PAGE
                eq_refl eq_refl) as HA2.
  destruct (check_ea_email_spec world (str_strip address) h)
    as (o1 & d1 & HrunA1 & HcA & _).
  destruct (run_unique _ _ _ _ _ _ HrunA HrunA1) as [_ <-].
  rewrite (effects_run (check_ea_email world (str_strip address)) h _ _ HrunA)
    in HeA, HA1, HA2.
  subst d.
  pose proof (count_le_calls EA_CHECK_URL dA) as HrA.
  assert ((calls EA_CHECK_URL dB = 0 /\ calls MS_CHECK_URL dB <= 3 /\
           calls EA_REFERER_PAGE dB = 0 /\ calls MS_REFERER_PAGE dB <= 3 /\
           count is_wait dB <= 3)%nat) as HdB.
  { destruct HB as [-> | [-> _]]; [cbn; lia |].
    destruct (check_ms_name_accounts world (str_strip address) (h ++ dA))
      as (o' & d' & HrunB & HwB & HpB & HFB & _).
    pose proof (check_ms_name_elsewhere world (str_strip address) (h ++ dA)
                  EA_CHECK_URL eq_refl eq_refl) as HB1.
    pose proof (check_ms_name_elsewhere world (str_strip address) (h ++ dA)
                  EA_REFERER_PAGE eq_refl eq_refl) as HB2.
    destruct (check_ms_name_spec world (str_strip address) (h ++ dA))
      as (o1' & d1' & HrunB1 & HcB & _).
    destruct (run_unique _ _ _ _ _ _ HrunB HrunB1) as [_ <-].
    rewrite (effects_run (check_ms_name world (str_strip address)) (h ++ dA) _ _ HrunB)
      in HB1, HB2 |- *.
    pose proof (count_le_calls MS_CHECK_URL d') as HrB.
    destruct (answered_200 MS_CHECK_URL d'); lia. }
  destruct (answered_200 EA_CHECK_URL dA); lia.
Qed.


(** X14: an address is filed as linked only after the EA endpoint answered
    200, and as available only after the Microsoft endpoint answered 200
    too: a probe that gave up never leads to these buckets. *)
Theorem linked_buckets_need_200_answers (unicode_lower : pystr -> pystr)
    (world : World) (address : pystr) (h h' : history) (r : verification_record) :
  process_email unicode_lower world address h = (Normal r, h') ->
  (bucket_of (final_folder r) <> Some NOT_LINKED ->
   answered_200 EA_CHECK_URL
     (effects (process_email unicode_lower world address) h) = true) /\
  (bucket_of (final_folder r) = Some LINKED_AND_AVAILABLE ->
   answered_200 MS_CHECK_URL
     (effects (process_email unicode_lower world address) h) = true).
Proof.
  intros Hret.
  destruct (process_email_effects unicode_lower world address h)
    as (c & dA & dB & Hrun & HeA & HB & HnoB).
  rewrite (effects_run (process_email unicode_lower world address) h _ _ Hrun).
  rewrite Hrun in Hret. injection Hret as -> _.
  rewrite !answered_200_app.
  destruct HB as [-> | (_ & HaA & va & ea & ms & [= ->] & Hms)].
  - destruct (HnoB eq_refl r eq_refl) as (ea & va & ->). cbn.
    split; [intros H; now contradiction H | discriminate].
  - rewrite HaA. split; [reflexivity |]. intros Hb.
    destruct (answered_200 MS_CHECK_URL dB); [apply orb_true_r |].
    rewrite (Hms eq_refl), interpret_ms_response_failed in Hb.
    discriminate Hb.
Qed.

Lemma linked_buckets_witness :
  fst (process_email Samples.plain_lower (Samples.always Samples.linked_body)
         Samples.address []) =
    Normal (record_linked Samples.address (Samples.clock [])
              {| ok := true; response := Samples.linked_body;
                 meta := {| status_code := 200; headers := [] |} |}
              {| exists_ := true;
                 ea_reason := "EA message: register_email_existed" |}
              {| ok := true; response := Samples.linked_body;
                 meta := {| status_code := 200; headers := [] |} |}
              {| available := Some true; ms_reason := "field:isAvailable" |}) /\
  answered_200 MS_CHECK_URL
    (effects (process_email Samples.plain_lower
                (Samples.always Samples.linked_body) Samples.address) []) = true.
Proof.
  split; [vm_compute; reflexivity |].
  refine (proj2 (linked_buckets_need_200_answers Samples.plain_lower
                   (Samples.always Samples.linked_body) Samples.address [] _ _ _) _).
  - vm_compute. reflexivity.
  - reflexivity.
Defined.

(** X15: what a returned record always holds: the trimmed address, the
    time at which the run began, and the note that belongs to its bucket
    (one fixed text per bucket). *)
Theorem record_fields (unicode_lower : pystr -> pystr)
    (world : World) (address : pystr) (h h' : history) (r : verification_record) :
  process_email unicode_lower world address h = (Normal r, h') ->
  email r = str_strip address /\
  timestamp r = localtime world h /\
  ea_check r <> None /\ ea_interpret r <> None /\
  exists b, bucket_of (final_folder r) = Some b /\ note r = Some (note_of b).
Proof.
  intros Hret.
  destruct (process_email_effects unicode_lower world address h)
    as (c & dA & dB & Hrun & _ & HB & HnoB).
  rewrite Hrun in Hret. injection Hret as -> _.
  destruct HB as [-> | (_ & _ & va & ea & ms & [= ->] & _)].
  - destruct (HnoB eq_refl r eq_refl) as (ea & va & ->). cbn.
    repeat split; try discriminate. now exists NOT_LINKED.
  - cbn. repeat split; try discriminate.
    destruct (is_available _);
      [now exists LINKED_AND_AVAILABLE | now exists LINKED_BUT_UNAVAILABLE].
Qed.

Lemma record_fields_witness :
  fst (process_email Samples.plain_lower Samples.offline (u "  a@b.com ") []) =
    Normal (record_not_linked Samples.address (Samples.clock []) failed_outcome
              {| exists_ := false; ea_reason := "no_clear_indicator" |}) /\
  email (record_not_linked Samples.address (Samples.clock []) failed_outcome
           {| exists_ := false; ea_reason := "no_clear_indicator" |}) =
    str_strip (u "  a@b.com ").
Proof.
  split; [vm_compute; reflexivity |].
  refine (proj1 (record_fields Samples.plain_lower Samples.offline
                   (u "  a@b.com ") [] _ _ _)).
  vm_compute. reflexivity.
Defined.
